(** * coms.qa.core: HTTP clients, JSON model mixin and RabbitMQ wrapper

    A shallow embedding of [coms/qa/core/http_client.py],
    [coms/qa/core/model.py] and [coms/qa/core/rabbitmq_client.py],
    followed by the properties the specification states about them.

    Python values are modelled as follows: [str] is [string], [int] is [Z],
    [bytes] is [list Byte.byte], [Optional[T]] is [option T], a
    [Dict[str, _]] of headers is a [gmap string string]; a keyword argument
    with a default value is an [option] whose [None] selects the default.
    Calls into third-party libraries ([requests], [aiohttp], [pika],
    [dataclasses_json]) are operations of an interface class; code of the
    Python standard library that the source calls ([urlunparse], [str.join],
    [str] of an [int], of a [UUID] and of a [Decimal]) is modelled after
    CPython. *)

From Stdlib Require Import ZArith List String Ascii Lia Bool.
From Stdlib.Strings Require Import Byte.
From stdpp Require Import base option list gmap strings pretty.

Import ListNotations.
Set Warnings "-register-all".
Local Open Scope string_scope.
Local Open Scope Z_scope.

(** ** Python primitives *)

Module Py.

(** Truth value of a [str]: only the empty string is false. *)
Definition truthy (s : string) : bool :=
  match s with
  | EmptyString => false
  | String _ _ => true
  end.

(** The slice [s[:n]]; shorter strings are returned whole. *)
Definition slice_to (n : nat) (s : string) : string := substring 0 n s.

(** [sep.join(parts)]. *)
Fixpoint join (sep : string) (parts : list string) : string :=
  match parts with
  | [] => ""
  | [p] => p
  | p :: rest => p +:+ sep +:+ join sep rest
  end.

(** [str(n)] for an [int]: decimal digits, a minus sign when negative. *)
Definition str_int (n : Z) : string := pretty n.

(** [x in xs] for a list of strings. *)
Definition contains (x : string) (xs : list string) : bool :=
  existsb (String.eqb x) xs.

End Py.

(** ** urllib.parse *)

Module UrlLib.

(** [urllib.parse.uses_netloc]. *)
Definition uses_netloc : list string :=
  [""; "ftp"; "http"; "gopher"; "nntp"; "telnet"; "imap"; "wais"; "file";
   "mms"; "https"; "shttp"; "snews"; "prospero"; "rtsp"; "rtspu"; "rsync";
   "svn"; "svn+ssh"; "sftp"; "nfs"; "git"; "git+ssh"; "ws"; "wss"].

(** [urllib.parse.urlunsplit] on [str] components, as in CPython 3.8 to
    3.11; later versions treat an empty [netloc] differently and a non-empty
    one in the same way. *)
Definition urlunsplit (scheme netloc url query fragment : string) : string :=
  let url :=
    if Py.truthy netloc
       || (Py.truthy scheme && Py.contains scheme uses_netloc
           && negb (String.eqb (Py.slice_to 2 url) "//"))
    then
      let url :=
        if Py.truthy url && negb (String.eqb (Py.slice_to 1 url) "/")
        then "/" +:+ url else url in
      "//" +:+ netloc +:+ url
    else url in
  let url := if Py.truthy scheme then scheme +:+ ":" +:+ url else url in
  let url := if Py.truthy query then url +:+ "?" +:+ query else url in
  let url := if Py.truthy fragment then url +:+ "#" +:+ fragment else url in
  url.

(** [urllib.parse.urlunparse] on a 6-tuple of [str] components. *)
Definition urlunparse
    (components : string * string * string * string * string * string)
    : string :=
  let '(scheme, netloc, url, params, query, fragment) := components in
  let url := if Py.truthy params then url +:+ ";" +:+ params else url in
  urlunsplit scheme netloc url query fragment.

End UrlLib.

(** ** http_client.py: configuration *)

Abbreviation Headers := (gmap string string).

(** [HttpClient]: the attributes set by [__init__]. *)
Record HttpClient := mkHttpClient {
  _host : string;
  _port : Z;
  _scheme : string;
  _headers : Headers;
}.

(** The literal [{"Content-Type": "application/json", "Accept": "application/json"}]. *)
Definition default_headers : Headers :=
  <["Accept" := "application/json"]>
    (<["Content-Type" := "application/json"]> ∅).

(** Truth value of a [dict]: only the empty mapping is false. *)
Definition dict_truthy (m : Headers) : bool := bool_decide (m ≠ ∅).

(** [HttpClient.__init__(host, port=80, scheme="http", headers=None)]. *)
Definition HttpClient_init (host : string) (port : option Z)
    (scheme : option string) (headers : option Headers) : HttpClient :=
  {| _host := host;
     _port := default 80 port;
     _scheme := default "http" scheme;
     _headers :=
       match headers with
       | Some h => if dict_truthy h then h else default_headers
       | None => default_headers
       end |}.

(** The properties [host], [port], [headers] and the [headers] setter. *)
Definition host (self : HttpClient) : string := _host self.
Definition port (self : HttpClient) : Z := _port self.
Definition headers (self : HttpClient) : Headers := _headers self.
Definition set_headers (self : HttpClient) (value : Headers) : HttpClient :=
  {| _host := _host self; _port := _port self; _scheme := _scheme self;
     _headers := value |}.

(** ** Effects

    Python code that calls a library changes the state of the outside world
    and may raise.  A computation is a function from the state to an outcome
    and the state it leaves behind; a raised exception keeps the state
    reached so far. *)

Inductive outcome (E A : Type) : Type :=
| Returns (a : A)
| Raises (e : E).
Arguments Returns {E A} a.
Arguments Raises {E A} e.

Definition M (S E A : Type) : Type := S -> outcome E A * S.

Definition ret {S E A} (a : A) : M S E A := fun s => (Returns a, s).

Definition raise {S E A} (e : E) : M S E A := fun s => (Raises e, s).

Definition bind {S E A B} (m : M S E A) (k : A -> M S E B) : M S E B :=
  fun s =>
    match m s with
    | (Returns a, s') => k a s'
    | (Raises e, s') => (Raises e, s')
    end.

(** [with cm: body]: the exit handler runs whether or not the body raised.
    The handlers of this development return [None], so an exception of the
    body is never suppressed; an exception of the handler replaces it. *)
Definition with_exit {S E A} (body : M S E A) (exit : M S E unit) : M S E A :=
  fun s =>
    match body s with
    | (r, s') =>
        match exit s' with
        | (Returns _, s'') => (r, s'')
        | (Raises e, s'') => (Raises e, s'')
        end
    end.

Declare Scope py_scope.
Delimit Scope py_scope with py.
Notation "x <- m ;; k" := (bind m (fun x => k))
  (at level 100, m at next level, right associativity) : py_scope.
Notation "m ;; k" := (bind m (fun _ => k))
  (at level 100, right associativity) : py_scope.
Local Open Scope py_scope.

(** ** http_client.py: the transport libraries *)

Abbreviation bytes := (list Byte.byte).

(** The types the source leaves to its libraries. *)
Class HttpTypes := {
  (** the request body, annotated [Any] *)
  payload : Type;
  (** the [float] timeout *)
  duration : Type;
  (** [requests.structures.CaseInsensitiveDict] *)
  CaseInsensitiveDict : Type;
  (** [requests.cookies.RequestsCookieJar] *)
  RequestsCookieJar : Type;
  (** what [requests] and [aiohttp] raise *)
  transport_error : Type;
  (** the state of the network and of the responders behind it *)
  net : Type;
}.

(** The arguments both libraries receive:
    [(method, url, data=, headers=, allow_redirects=, timeout=)]. *)
Record Call `{HttpTypes} := mkCall {
  c_method : string;
  c_url : string;
  c_data : option payload;
  c_headers : Headers;
  c_allow_redirects : bool;
  c_timeout : option duration;
}.
Arguments mkCall {_} _ _ _ _ _ _.

(** [requests.Response], the attributes the source reads. *)
Record Response `{HttpTypes} := mkResponse {
  status_code : Z;
  content : bytes;
  response_headers : CaseInsensitiveDict;
  cookies : RequestsCookieJar;
}.
Arguments mkResponse {_} _ _ _ _.

(** [aiohttp.TCPConnector(ssl=...)]. *)
Record TCPConnector := mkTCPConnector { ssl : bool }.

(** [requests.request]. *)
Class Requests `{HttpTypes} := {
  requests_request : Call -> M net transport_error Response;
}.

(** [aiohttp]: a session's [request], the response's [status] and [read],
    and the exit handlers of the two [async with] blocks. *)
Class Aiohttp `{HttpTypes} := {
  ClientResponse : Type;
  session_request : TCPConnector -> Call -> M net transport_error ClientResponse;
  status : ClientResponse -> Z;
  read : ClientResponse -> M net transport_error bytes;
  response_aexit : ClientResponse -> M net transport_error unit;
  session_aexit : TCPConnector -> M net transport_error unit;
}.

(** [HttpClientError(code, content)], and the exceptions of the libraries. *)
Inductive http_exn `{HttpTypes} : Type :=
| HttpClientError (code : Z) (content : bytes)
| TransportError (e : transport_error).
Arguments HttpClientError {_} code content.
Arguments TransportError {_} e.

(** An argument of a [logger.debug] call. *)
Inductive log_arg `{HttpTypes} : Type :=
| LStr (s : string)
| LInt (n : Z)
| LData (d : payload)
| LBytes (b : bytes).
Arguments LStr {_} s.
Arguments LInt {_} n.
Arguments LData {_} d.
Arguments LBytes {_} b.

(** One [logger.debug(fmt, *args)] call. *)
Record log_record `{HttpTypes} := mkLog {
  log_fmt : string;
  log_args : list log_arg;
}.
Arguments mkLog {_} _ _.

(** Which library a call was handed to. *)
Inductive library := ViaRequests | ViaAiohttp (connector : TCPConnector).

(** What a client does, seen from outside: it writes a diagnostic line or
    it hands a call to a transport library. *)
Inductive event `{HttpTypes} : Type :=
| Logged (r : log_record)
| HandedOver (l : library) (c : Call).
Arguments Logged {_} r.
Arguments HandedOver {_} l c.

(** The world a client runs in: the network, the [logger.debug] calls made
    so far, the calls handed to a transport library so far, and both in the
    order they happened (oldest first). *)
Record world `{HttpTypes} := mkWorld {
  w_net : net;
  w_log : list log_record;
  w_wire : list (library * Call);
  w_events : list event;
}.
Arguments mkWorld {_} _ _ _ _.

Section HttpClients.
Context `{HT : HttpTypes} {RQ : Requests} {AIO : Aiohttp}.

Definition HttpM (A : Type) : Type := M world http_exn A.

(** Runs a library operation on the network of the world. *)
Definition on_net {A} (m : M net transport_error A) : HttpM A :=
  fun w =>
    match m (w_net w) with
    | (Returns a, n) => (Returns a, mkWorld n (w_log w) (w_wire w) (w_events w))
    | (Raises e, n) =>
        (Raises (TransportError e), mkWorld n (w_log w) (w_wire w) (w_events w))
    end.

(** Notes that a call is handed to a library. *)
Definition hand_over (l : library) (c : Call) : HttpM unit :=
  fun w =>
    (Returns tt,
     mkWorld (w_net w) (w_log w) (w_wire w ++ [(l, c)])
       (w_events w ++ [HandedOver l c])).

Definition logger_debug (fmt : string) (args : list log_arg) : HttpM unit :=
  fun w =>
    (Returns tt,
     mkWorld (w_net w) (w_log w ++ [mkLog fmt args]) (w_wire w)
       (w_events w ++ [Logged (mkLog fmt args)])).

(** [data if data is not None else ""] *)
Definition data_or_empty (data : option payload) : log_arg :=
  match data with
  | Some d => LData d
  | None => LStr ""
  end.

(** *** SyncHttpClient *)

(** [SyncHttpClient.request(method, path, query="", data=None, request_id="",
    headers=None, allow_redirects=True, timeout=None)] *)
Definition Sync_request (self : HttpClient) (method path query : string)
    (data : option payload) (request_id : string) (hdrs : option Headers)
    (allow_redirects : bool) (timeout : option duration)
    : HttpM (Z * bytes * CaseInsensitiveDict * RequestsCookieJar) :=
  let url :=
    UrlLib.urlunparse
      (_scheme self, Py.join ":" [host self; Py.str_int (port self)],
       path, "", query, "") in
  let request_id :=
    if Py.truthy request_id then " [" +:+ request_id +:+ "]" else "" in
  logger_debug "--->%s HTTP %s %s %s"
    [LStr request_id; LStr method; LStr url; data_or_empty data] ;;
  let hdrs := match hdrs with Some h => h | None => headers self end in
  let call := mkCall method url data hdrs allow_redirects timeout in
  hand_over ViaRequests call ;;
  response <- on_net (requests_request call) ;;
  let '(code, data, ret_headers, cookies) :=
    (status_code response, content response, response_headers response,
     cookies response) in
  logger_debug "<---%s HTTP %s %s code=%s data=%s"
    [LStr request_id; LStr method; LStr url; LInt code; LBytes data] ;;
  ret (code, data, ret_headers, cookies).

Definition Sync_get (self : HttpClient) (path query request_id : string)
    (hdrs : option Headers) (allow_redirects : bool) (timeout : option duration) :=
  Sync_request self "GET" path query None request_id hdrs allow_redirects timeout.

Definition Sync_post (self : HttpClient) (path query : string)
    (data : option payload) (request_id : string)
    (hdrs : option Headers) (allow_redirects : bool) (timeout : option duration) :=
  Sync_request self "POST" path query data request_id hdrs allow_redirects timeout.

Definition Sync_patch (self : HttpClient) (path query : string)
    (data : option payload) (request_id : string)
    (hdrs : option Headers) (allow_redirects : bool) (timeout : option duration) :=
  Sync_request self "PATCH" path query data request_id hdrs allow_redirects timeout.

Definition Sync_put (self : HttpClient) (path query : string)
    (data : option payload) (request_id : string)
    (hdrs : option Headers) (allow_redirects : bool) (timeout : option duration) :=
  Sync_request self "PUT" path query data request_id hdrs allow_redirects timeout.

Definition Sync_delete (self : HttpClient) (path query : string)
    (data : option payload) (request_id : string)
    (hdrs : option Headers) (allow_redirects : bool) (timeout : option duration) :=
  Sync_request self "DELETE" path query data request_id hdrs allow_redirects timeout.

(** *** AsyncHttpClient

    A coroutine is modelled by the computation it performs from the first
    [await] to its return; other tasks running in between are changes of the
    network the libraries' operations observe. *)

(** [AsyncHttpClient.request(method, path, query="", data=None, request_id="",
    headers=None, allow_redirects=True, timeout=None)] *)
Definition Async_request (self : HttpClient) (method path query : string)
    (data : option payload) (request_id : string) (hdrs : option Headers)
    (allow_redirects : bool) (timeout : option duration)
    : HttpM (Z * bytes) :=
  let url :=
    UrlLib.urlunparse
      (_scheme self, Py.join ":" [host self; Py.str_int (port self)],
       path, "", query, "") in
  let request_id :=
    if Py.truthy request_id then " [" +:+ request_id +:+ "]" else "" in
  let hdrs := match hdrs with Some h => h | None => headers self end in
  logger_debug "--->%s HTTP %s %s %s"
    [LStr request_id; LStr method; LStr url; data_or_empty data] ;;
  let connector := mkTCPConnector false in
  with_exit
    (let call := mkCall method url data hdrs allow_redirects timeout in
     hand_over (ViaAiohttp connector) call ;;
     response <- on_net (session_request connector call) ;;
     with_exit
       (data <- on_net (read response) ;;
        let code := status response in
        logger_debug "<---%s HTTP %s %s code=%s data=%s"
          [LStr request_id; LStr method; LStr url; LInt code; LBytes data] ;;
        ret (code, data))
       (on_net (response_aexit response)))
    (on_net (session_aexit connector)).

Definition Async_get (self : HttpClient) (path query request_id : string)
    (hdrs : option Headers) (allow_redirects : bool) (timeout : option duration) :=
  Async_request self "GET" path query None request_id hdrs allow_redirects timeout.

Definition Async_post (self : HttpClient) (path query : string)
    (data : option payload) (request_id : string)
    (hdrs : option Headers) (allow_redirects : bool) (timeout : option duration) :=
  Async_request self "POST" path query data request_id hdrs allow_redirects timeout.

Definition Async_patch (self : HttpClient) (path query : string)
    (data : option payload) (request_id : string)
    (hdrs : option Headers) (allow_redirects : bool) (timeout : option duration) :=
  Async_request self "PATCH" path query data request_id hdrs allow_redirects timeout.

Definition Async_put (self : HttpClient) (path query : string)
    (data : option payload) (request_id : string)
    (hdrs : option Headers) (allow_redirects : bool) (timeout : option duration) :=
  Async_request self "PUT" path query data request_id hdrs allow_redirects timeout.

Definition Async_delete (self : HttpClient) (path query : string)
    (data : option payload) (request_id : string)
    (hdrs : option Headers) (allow_redirects : bool) (timeout : option duration) :=
  Async_request self "DELETE" path query data request_id hdrs allow_redirects timeout.

End HttpClients.

(** *** Observations of one run *)

Section Observations.
Context `{HT : HttpTypes}.

(** The outcome of running [m] from the world [w]. *)
Definition result_of {A} (m : M world http_exn A) (w : world) : outcome http_exn A :=
  fst (m w).

(** The calls [m] handed to a transport library when run from [w]. *)
Definition calls_made {A} (m : M world http_exn A) (w : world) : list (library * Call) :=
  drop (length (w_wire w)) (w_wire (snd (m w))).

(** The [logger.debug] calls [m] made when run from [w]. *)
Definition logged {A} (m : M world http_exn A) (w : world) : list log_record :=
  drop (length (w_log w)) (w_log (snd (m w))).

End Observations.

(** Two libraries speak to the same responder when, handed the same call,
    a response of one and a fully read response of the other carry the same
    status code and the same body. *)
Definition same_responder `{HT : HttpTypes} {RQ : Requests} {AIO : Aiohttp} : Prop :=
  forall (call : Call) (connector : TCPConnector) (n n' n1 n2 n3 : net)
         (r : Response) (resp : ClientResponse) (body : bytes),
    requests_request call n = (Returns r, n1) ->
    session_request connector call n' = (Returns resp, n2) ->
    read resp n2 = (Returns body, n3) ->
    status_code r = status resp /\ content r = body.

(** *** A responder for examples

    A network that counts the calls it has served.  The responder answers a
    [POST] with [201] and the request body, a call to a URL ending in
    [/down] with a connection error, and anything else with [200] and
    [{"ok":true}]. *)

Module Loopback.

Definition ok_body : bytes :=
  [x7b; x22; x6f; x6b; x22; x3a; x74; x72; x75; x65; x7d].

#[export] Instance types : HttpTypes := {|
  payload := bytes;
  duration := Z;
  CaseInsensitiveDict := list (string * string);
  RequestsCookieJar := list (string * string);
  transport_error := string;
  net := nat;
|}.

Fixpoint ends_with_down (url : string) : bool :=
  match url with
  | EmptyString => false
  | String _ rest => String.eqb url "/down" || ends_with_down rest
  end.

Definition respond (c : Call) : outcome string (Z * bytes) :=
  if ends_with_down (c_url c) then Raises "ConnectionError"
  else if String.eqb (c_method c) "POST"
       then Returns (201, default [] (c_data c))
       else Returns (200, ok_body).

#[export] Instance requests : Requests := {|
  requests_request c n :=
    match respond c with
    | Returns (code, body) =>
        (Returns (mkResponse code body [("Server", "loopback")] []), S n)
    | Raises e => (Raises e, S n)
    end;
|}.

#[export] Instance aiohttp : Aiohttp := {|
  ClientResponse := Z * bytes;
  session_request _ c n :=
    match respond c with
    | Returns r => (Returns r, S n)
    | Raises e => (Raises e, S n)
    end;
  status r := fst r;
  read r n := (Returns (snd r), n);
  response_aexit _ n := (Returns tt, n);
  session_aexit _ n := (Returns tt, n);
|}.

Definition client : HttpClient :=
  HttpClient_init "example.org" (Some 8080) None None.

Definition fresh : world := mkWorld 0%nat [] [] [].

End Loopback.

(** ** rabbitmq_client.py: the pika library *)

(** [pika.DeliveryMode] and its [value]. *)
Inductive DeliveryMode := Transient | Persistent.

Definition DeliveryMode_value (m : DeliveryMode) : Z :=
  match m with
  | Transient => 1
  | Persistent => 2
  end.

(** [pika.spec.BasicProperties], the two properties the source sets. *)
Record BasicProperties := mkBasicProperties {
  content_type : string;
  delivery_mode : Z;
}.

(** [pika.PlainCredentials(username, password)]. *)
Record PlainCredentials := mkPlainCredentials {
  cred_username : string;
  cred_password : string;
}.

(** The types the source leaves to pika. *)
Class PikaTypes := {
  (** the [float] timeout, the literal [30] and the test [value < 0] *)
  seconds : Type;
  thirty : seconds;
  negative : seconds -> bool;
  thirty_not_negative : negative thirty = false;
  (** [pika.BlockingConnection] and [BlockingChannel] objects *)
  BlockingConnection : Type;
  BlockingChannel : Type;
  (** [pika.spec.Basic.GetOk] *)
  GetOk : Type;
  (** what pika raises of its own *)
  pika_error : Type;
  (** the state of the connections, their channels and the broker *)
  amqp : Type;
}.

(** [pika.ConnectionParameters(host, port, virtual_host, credentials,
    blocked_connection_timeout=)]. *)
Record ConnectionParameters `{PikaTypes} := mkConnectionParameters {
  cp_host : string;
  cp_port : Z;
  cp_virtual_host : string;
  cp_credentials : PlainCredentials;
  cp_blocked_connection_timeout : option seconds;
}.
Arguments mkConnectionParameters {_} _ _ _ _ _.

(** The operations of pika the source calls. *)
Class Pika `{PikaTypes} := {
  (** [BlockingConnection(parameters)] *)
  new_connection : ConnectionParameters -> M amqp pika_error BlockingConnection;
  (** [connection.channel()] *)
  connection_channel : BlockingConnection -> M amqp pika_error BlockingChannel;
  (** [connection.close()] *)
  connection_close : BlockingConnection -> M amqp pika_error unit;
  (** [channel.is_open] *)
  is_open : BlockingChannel -> amqp -> bool;
  (** [channel.basic_get(queue)] *)
  basic_get : BlockingChannel -> string ->
    M amqp pika_error (option GetOk * option BasicProperties * option string);
  (** [channel.basic_publish(exchange=, routing_key=, body=, properties=)] *)
  basic_publish : BlockingChannel -> string -> string -> string ->
    BasicProperties -> M amqp pika_error unit;
  (** [channel.close()] *)
  channel_close : BlockingChannel -> M amqp pika_error unit;
}.

(** What a method of the wrapper raises: [AMQPChannelError(msg)] raised by
    the wrapper itself, an exception out of pika's connections and channels,
    the [AttributeError] of reading [self._rabbitmq] after [close] deleted
    it, or the [ValueError] of [ConnectionParameters] for an argument out of
    range. *)
Inductive amqp_exn `{PikaTypes} : Type :=
| AMQPChannelError (msg : string)
| PikaError (e : pika_error)
| AttributeError (name : string)
| ValueError (msg : string).
Arguments AMQPChannelError {_} msg.
Arguments PikaError {_} e.
Arguments AttributeError {_} name.
Arguments ValueError {_} msg.

(** A call into pika, as the wrapper makes it. *)
Inductive pika_call `{PikaTypes} : Type :=
| CallConnection (p : ConnectionParameters)
| CallChannel (c : BlockingConnection)
| CallConnectionClose (c : BlockingConnection)
| CallBasicGet (ch : BlockingChannel) (queue : string)
| CallBasicPublish (ch : BlockingChannel) (exchange routing_key body : string)
    (properties : BasicProperties)
| CallChannelClose (ch : BlockingChannel).
Arguments CallConnection {_} p.
Arguments CallChannel {_} c.
Arguments CallConnectionClose {_} c.
Arguments CallBasicGet {_} ch queue.
Arguments CallBasicPublish {_} ch exchange routing_key body properties.
Arguments CallChannelClose {_} ch.

(** The world the wrapper runs in: the AMQP state, the calls made into pika
    so far (oldest first) and the [logger.debug] messages so far. *)
Record mq_world `{PikaTypes} := mkMq {
  mq_amqp : amqp;
  mq_calls : list pika_call;
  mq_log : list string;
}.
Arguments mkMq {_} _ _ _.

(** [RabbitMQClient]: the attributes set by [__init__] and [connect];
    [_rabbitmq] is [None] once [close] has deleted the attribute. *)
Record RabbitMQClient `{PikaTypes} := mkRabbitMQClient {
  mq_host : string;
  mq_port : Z;
  mq_virtual_host : string;
  mq_scheme : string;
  mq_username : string;
  mq_password : string;
  _rabbitmq : option BlockingConnection;
}.
Arguments mkRabbitMQClient {_} _ _ _ _ _ _ _.

Section RabbitMQ.
Context `{PT : PikaTypes} {PK : Pika}.

Definition MqM (A : Type) : Type := M mq_world amqp_exn A.

(** Makes a call into pika on the AMQP state of the world, noting it. *)
Definition pika {A} (c : pika_call) (m : M amqp pika_error A) : MqM A :=
  fun w =>
    match m (mq_amqp w) with
    | (Returns a, s) => (Returns a, mkMq s (mq_calls w ++ [c]) (mq_log w))
    | (Raises e, s) => (Raises (PikaError e), mkMq s (mq_calls w ++ [c]) (mq_log w))
    end.

(** Reads [channel.is_open]. *)
Definition channel_is_open (ch : BlockingChannel) : MqM bool :=
  fun w => (Returns (is_open ch (mq_amqp w)), w).

Definition mq_debug (msg : string) : MqM unit :=
  fun w => (Returns tt, mkMq (mq_amqp w) (mq_calls w) (mq_log w ++ [msg])).

(** Reads [self._rabbitmq]. *)
Definition get_rabbitmq (self : RabbitMQClient) : MqM BlockingConnection :=
  match _rabbitmq self with
  | Some c => ret c
  | None => raise (AttributeError "_rabbitmq")
  end.

(** [pika.ConnectionParameters(host, port, virtual_host, credentials,
    blocked_connection_timeout=timeout)].  The constructor checks its
    arguments; with a [str] host and virtual host, an [int] port and
    credentials of [PlainCredentials], the one check that can fail is
    [blocked_connection_timeout >= 0], which raises [ValueError]. *)
Definition ConnectionParameters_new (host : string) (port : Z)
    (virtual_host : string) (credentials : PlainCredentials)
    (timeout : option seconds) : MqM ConnectionParameters :=
  if match timeout with Some t => negative t | None => false end
  then raise (ValueError "blocked_connection_timeout must be >= 0")
  else ret (mkConnectionParameters host port virtual_host credentials timeout).

(** [RabbitMQClient.connect(timeout=30)]; returns the updated [self]. *)
Definition RabbitMQClient_connect (self : RabbitMQClient)
    (timeout : option (option seconds)) : MqM RabbitMQClient :=
  let timeout := default (Some thirty) timeout in
  mq_debug ("Creating connection to '" +:+ mq_host self +:+ "' ...") ;;
  let credentials := mkPlainCredentials (mq_username self) (mq_password self) in
  parameters <-
    ConnectionParameters_new (mq_host self) (mq_port self)
      (mq_virtual_host self) credentials timeout ;;
  c <- pika (CallConnection parameters) (new_connection parameters) ;;
  let self :=
    mkRabbitMQClient (mq_host self) (mq_port self) (mq_virtual_host self)
      (mq_scheme self) (mq_username self) (mq_password self) (Some c) in
  mq_debug "Connected" ;;
  ret self.

(** [RabbitMQClient.__init__(host, port=5672, virtual_host="/", scheme="amqp",
    username="guest", password="guest")] *)
Definition RabbitMQClient_init (host : string) (port : option Z)
    (virtual_host scheme username password : option string)
    : MqM RabbitMQClient :=
  let self :=
    mkRabbitMQClient host (default 5672 port) (default "/" virtual_host)
      (default "amqp" scheme) (default "guest" username)
      (default "guest" password) None in
  RabbitMQClient_connect self None.

(** [RabbitMQClient.channel()] *)
Definition RabbitMQClient_channel (self : RabbitMQClient) : MqM BlockingChannel :=
  mq_debug "Creating channel" ;;
  c <- get_rabbitmq self ;;
  channel <- pika (CallChannel c) (connection_channel c) ;;
  mq_debug "Created" ;;
  ret channel.

(** [RabbitMQClient.close()]; returns the updated [self]. *)
Definition RabbitMQClient_close (self : RabbitMQClient) : MqM RabbitMQClient :=
  mq_debug "Closing rabbitmq connection ..." ;;
  c <- get_rabbitmq self ;;
  pika (CallConnectionClose c) (connection_close c) ;;
  mq_debug "Closed" ;;
  ret (mkRabbitMQClient (mq_host self) (mq_port self) (mq_virtual_host self)
         (mq_scheme self) (mq_username self) (mq_password self) None).

(** [RabbitMQClient.get(channel, queue)] *)
Definition RabbitMQClient_get (self : RabbitMQClient) (channel : BlockingChannel)
    (queue : string)
    : MqM (option GetOk * option BasicProperties * option string) :=
  open <- channel_is_open channel ;;
  if negb open then raise (AMQPChannelError "Channel is closed")
  else pika (CallBasicGet channel queue) (basic_get channel queue).

(** [RabbitMQClient.publish(queue, message="",
    content_type="application/octect-stream",
    delivery_mode=DeliveryMode.Persistent)] *)
Definition RabbitMQClient_publish (self : RabbitMQClient) (queue : string)
    (message content_type : option string) (delivery_mode : option DeliveryMode)
    : MqM unit :=
  let message := default "" message in
  let content_type := default "application/octect-stream" content_type in
  let delivery_mode := default Persistent delivery_mode in
  channel <- RabbitMQClient_channel self ;;
  open <- channel_is_open channel ;;
  (if open then
     let properties :=
       mkBasicProperties content_type (DeliveryMode_value delivery_mode) in
     pika (CallBasicPublish channel "" queue message properties)
       (basic_publish channel "" queue message properties)
   else raise (AMQPChannelError "Channel is closed")) ;;
  pika (CallChannelClose channel) (channel_close channel).

End RabbitMQ.

(** *** Observations of one run *)

Section MqObservations.
Context `{PT : PikaTypes} {PK : Pika}.

(** The outcome of running [m] from the world [w]. *)
Definition mq_result {A} (m : M mq_world amqp_exn A) (w : mq_world) : outcome amqp_exn A :=
  fst (m w).

(** The calls into pika that [m] made when run from [w]. *)
Definition mq_calls_made {A} (m : M mq_world amqp_exn A) (w : mq_world) : list pika_call :=
  drop (length (mq_calls w)) (mq_calls (snd (m w))).

(** The AMQP state [m] leaves behind when run from [w]. *)
Definition amqp_after {A} (m : M mq_world amqp_exn A) (w : mq_world) : amqp :=
  mq_amqp (snd (m w)).


End MqObservations.

(** *** A broker for examples

    Channels are numbered in the order they are opened.  As in pika, a
    routing key longer than 255 bytes cannot be encoded as an AMQP short
    string: [basic_publish] raises [ShortStringTooLong] and leaves the
    channel as it was.  While [accepting] is false, [channel()] hands out
    channels that are already closed. *)

Module Broker.

Record state := mkState {
  next_channel : nat;
  open_channels : gset nat;
  queues : gmap string (list (BasicProperties * string));
  accepting : bool;
}.

#[export] Instance types : PikaTypes := {|
  seconds := Z;
  thirty := 30;
  negative := fun t => t <? 0;
  thirty_not_negative := eq_refl;
  BlockingConnection := unit;
  BlockingChannel := nat;
  GetOk := nat;
  pika_error := string;
  amqp := state;
|}.

Definition open (ch : nat) (s : state) : bool := bool_decide (ch ∈ open_channels s).

Definition channel (s : state) : outcome string nat * state :=
  let ch := next_channel s in
  (Returns ch,
   mkState (S ch)
     (if accepting s then {[ch]} ∪ open_channels s else open_channels s)
     (queues s) (accepting s)).

Definition publish (ch : nat) (routing_key body : string)
    (properties : BasicProperties) (s : state) : outcome string unit * state :=
  if negb (open ch s) then (Raises "ChannelWrongStateError", s)
  else if (255 <? String.length routing_key)%nat
       then (Raises "ShortStringTooLong", s)
       else
         (Returns tt,
          mkState (next_channel s) (open_channels s)
            (<[routing_key :=
                 (default [] (queues s !! routing_key) ++ [(properties, body)])%list]>
               (queues s))
            (accepting s)).

Definition get (ch : nat) (queue : string) (s : state)
    : outcome string (option nat * option BasicProperties * option string) * state :=
  if negb (open ch s) then (Raises "ChannelWrongStateError", s)
  else
    match queues s !! queue with
    | Some ((properties, body) :: rest) =>
        (Returns (Some (length rest), Some properties, Some body),
         mkState (next_channel s) (open_channels s)
           (<[queue := rest]> (queues s)) (accepting s))
    | _ => (Returns (None, None, None), s)
    end.

Definition close_channel (ch : nat) (s : state) : outcome string unit * state :=
  if negb (open ch s) then (Raises "ChannelWrongStateError", s)
  else
    (Returns tt,
     mkState (next_channel s) (open_channels s ∖ {[ch]}) (queues s) (accepting s)).

#[export] Instance pika : Pika := {|
  new_connection _ s := (Returns tt, s);
  connection_channel _ := channel;
  connection_close _ s :=
    (Returns tt, mkState (next_channel s) ∅ (queues s) (accepting s));
  is_open := open;
  basic_get := get;
  basic_publish ch _ routing_key body properties := publish ch routing_key body properties;
  channel_close := close_channel;
|}.

(** A broker with no channels and no messages. *)
Definition idle (accepting : bool) : mq_world :=
  mkMq (mkState 0 ∅ ∅ accepting) [] [].

(** A broker with channel 0 open and the message [hi] waiting in the
    queue [jobs]. *)
Definition serving : mq_world :=
  mkMq
    (mkState 1 {[0%nat]}
       {["jobs" := [(mkBasicProperties "text/plain" 2, "hi")]]} true)
    [] [].

(** A client connected to it. *)
Definition client : RabbitMQClient :=
  mkRabbitMQClient "localhost" 5672 "/" "amqp" "guest" "guest" (Some tt).

(** A queue name of 256 characters. *)
Definition long_name : string :=
  Eval cbv in
    let x16 := "qqqqqqqqqqqqqqqq" in
    let x64 := x16 +:+ x16 +:+ x16 +:+ x16 in
    x64 +:+ x64 +:+ x64 +:+ x64.

End Broker.

(** ** model.py: Python values *)

(** [uuid.UUID]: the 128-bit [int] attribute. *)
Record UUID := mkUUID { uuid_int : N }.

(** The exponent of a [decimal.Decimal]: an [int], or one of the markers
    ['F'], ['n'], ['N'] of the special values. *)
Inductive dec_exp :=
| Finite (e : Z)
| Infinity
| QuietNaN
| SignalingNaN.

(** [decimal.Decimal]: the slots [_sign], [_int] (a string of decimal
    digits) and [_exp]. *)
Record Decimal := mkDecimal {
  dec_sign : bool;
  dec_int : string;
  dec_exp_ : dec_exp;
}.

(** The Python values [_asdict] tells apart, and the ones it passes
    through.  A [float] is its IEEE 754 bit pattern, a [dict] the list of its
    items in insertion order, an [Enum] member its class, its name and its
    [value]; [PObject] stands for an object of any other class, with
    whether [hash] accepts it. *)
Inductive pyval :=
| PNone
| PBool (b : bool)
| PInt (n : Z)
| PFloat (bits : Z)
| PStr (s : string)
| PBytes (b : list Byte.byte)
| PTuple (elems : list pyval)
| PList (elems : list pyval)
| PDict (items : list (pyval * pyval))
| PEnum (cls member : string) (value : pyval)
| PUUID (u : UUID)
| PDecimal (d : Decimal)
| PObject (id : positive) (hashable : bool).

(** What [_asdict] and [to_dict] raise: the [TypeError] of an unhashable
    dictionary key, or an exception out of [dataclasses_json]. *)
Inductive py_exn :=
| TypeError
| LibraryError (name : string).

Module PyStr.

(** [s[i:j]] and [s[i:]] for [0 <= i <= j]. *)
Definition slice (i j : nat) (s : string) : string := substring i (j - i) s.
Definition slice_from (i : nat) (s : string) : string :=
  substring i (String.length s - i) s.

(** [c * n] for a one-character string. *)
Fixpoint repeat (c : ascii) (n : nat) : string :=
  match n with
  | O => ""
  | S n' => String c (repeat c n')
  end.

Definition hex_digit (n : N) : ascii :=
  match n with
  | 0 => "0" | 1 => "1" | 2 => "2" | 3 => "3" | 4 => "4" | 5 => "5"
  | 6 => "6" | 7 => "7" | 8 => "8" | 9 => "9" | 10 => "a" | 11 => "b"
  | 12 => "c" | 13 => "d" | 14 => "e" | _ => "f"
  end%N%char.

(** The [width] low hexadecimal digits of [n], most significant first. *)
Fixpoint hex_digits (width : nat) (n : N) (acc : string) : string :=
  match width with
  | O => acc
  | S w => hex_digits w (N.shiftr n 4) (String (hex_digit (N.land n 15)) acc)
  end.

(** ['%032x' % n] for [0 <= n < 2**128]. *)
Definition format_032x (n : N) : string := hex_digits 32 n "".

(** ["%+d" % n] *)
Definition format_plus_d (n : Z) : string :=
  if (0 <=? n)%Z then "+" +:+ pretty n else pretty n.

End PyStr.

(** [UUID.__str__]:
    [hex = '%032x' % self.int] and
    ['%s-%s-%s-%s-%s' % (hex[:8], hex[8:12], hex[12:16], hex[16:20], hex[20:])] *)
Definition UUID_str (u : UUID) : string :=
  let hex := PyStr.format_032x (uuid_int u) in
  PyStr.slice 0 8 hex +:+ "-" +:+ PyStr.slice 8 12 hex +:+ "-" +:+
  PyStr.slice 12 16 hex +:+ "-" +:+ PyStr.slice 16 20 hex +:+ "-" +:+
  PyStr.slice_from 20 hex.

(** [Decimal.__str__] (scientific notation, default context). *)
Definition Decimal_str (d : Decimal) : string :=
  let sign := if dec_sign d then "-" else "" in
  match dec_exp_ d with
  | Infinity => sign +:+ "Infinity"
  | QuietNaN => sign +:+ "NaN" +:+ dec_int d
  | SignalingNaN => sign +:+ "sNaN" +:+ dec_int d
  | Finite exp =>
      let len := Z.of_nat (String.length (dec_int d)) in
      let leftdigits := exp + len in
      let dotplace :=
        if (exp <=? 0) && (-6 <? leftdigits) then leftdigits else 1 in
      let '(intpart, fracpart) :=
        if dotplace <=? 0 then
          ("0", "." +:+ PyStr.repeat "0" (Z.to_nat (- dotplace)) +:+ dec_int d)
        else if len <=? dotplace then
          (dec_int d +:+ PyStr.repeat "0" (Z.to_nat (dotplace - len)), "")
        else
          (PyStr.slice 0 (Z.to_nat dotplace) (dec_int d),
           "." +:+ PyStr.slice_from (Z.to_nat dotplace) (dec_int d)) in
      let exp :=
        if leftdigits =? dotplace then ""
        else "E" +:+ PyStr.format_plus_d (leftdigits - dotplace) in
      sign +:+ intpart +:+ fracpart +:+ exp
  end.

(** Equality of dictionary keys ([__hash__] and [__eq__]); it depends on
    the classes of the keys (an [Enum] with a [str] mixin equals its value,
    [1 == 1.0 == True]), so it is left to the interpreter. *)
Class PyKeys := { key_eq : pyval -> pyval -> bool }.

(** [hash(obj)] succeeds: lists and dicts are unhashable, a tuple is
    hashable when its elements are, a [Decimal] unless it is a signaling NaN,
    an object of another class as its class decides. *)
Fixpoint hashable (obj : pyval) : bool :=
  match obj with
  | PList _ | PDict _ => false
  | PTuple elems => forallb hashable elems
  | PDecimal d =>
      match dec_exp_ d with
      | SignalingNaN => false
      | _ => true
      end
  | PObject _ accepted => accepted
  | _ => true
  end.

(** [dataclasses_json.DataClassJsonMixin]: the instances of the dataclasses
    that derive from [Model], and the mixin's [to_dict]. *)
Class DataClassJson := {
  dataclass : Type;
  mixin_to_dict : dataclass -> bool -> outcome py_exn pyval;
}.

Section Model.
Context {KE : PyKeys} {DJ : DataClassJson}.

(** [d[k] = v] on the items of a dict: an equal key keeps its place and its
    key object and takes the new value, a new key is appended. *)
Fixpoint dict_setitem (items : list (pyval * pyval)) (k v : pyval)
    : list (pyval * pyval) :=
  match items with
  | [] => [(k, v)]
  | (k0, v0) :: rest =>
      if key_eq k0 k then (k0, v) :: rest
      else (k0, v0) :: dict_setitem rest k v
  end.

(** [d.get(q)] on the items of a dict: the value of the item whose key
    equals [q], [None] without one. *)
Fixpoint dict_getitem (items : list (pyval * pyval)) (q : pyval)
    : option pyval :=
  match items with
  | [] => None
  | (k0, v0) :: rest => if key_eq k0 q then Some v0 else dict_getitem rest q
  end.

(** [[f(o) for o in elems]]: the elements in order, the first exception
    ends the comprehension. *)
Definition list_comprehension (f : pyval -> outcome py_exn pyval)
    : list pyval -> list pyval -> outcome py_exn (list pyval) :=
  fix loop (todo acc : list pyval) : outcome py_exn (list pyval) :=
    match todo with
    | [] => Returns acc
    | o :: rest =>
        match f o with
        | Raises e => Raises e
        | Returns o' => loop rest (acc ++ [o'])%list
        end
    end.

(** [{fk(k): fv(v) for k, v in items}]: for each item the key, then the
    value, then the insertion, which hashes the key. *)
Definition dict_comprehension (fk fv : pyval -> outcome py_exn pyval)
    : list (pyval * pyval) -> list (pyval * pyval) ->
      outcome py_exn (list (pyval * pyval)) :=
  fix loop (todo acc : list (pyval * pyval))
      : outcome py_exn (list (pyval * pyval)) :=
    match todo with
    | [] => Returns acc
    | (k, v) :: rest =>
        match fk k with
        | Raises e => Raises e
        | Returns k' =>
            match fv v with
            | Raises e => Raises e
            | Returns v' =>
                if hashable k' then loop rest (dict_setitem acc k' v')
                else Raises TypeError
            end
        end
    end.

(** [_asdict(obj)] *)
Fixpoint _asdict (obj : pyval) : outcome py_exn pyval :=
  match obj with
  | PDict items =>
      match dict_comprehension _asdict _asdict items [] with
      | Returns d => Returns (PDict d)
      | Raises e => Raises e
      end
  | PList elems =>
      match list_comprehension _asdict elems [] with
      | Returns l => Returns (PList l)
      | Raises e => Raises e
      end
  | PEnum _ _ value => Returns value
  | PUUID u => Returns (PStr (UUID_str u))
  | PDecimal d => Returns (PStr (Decimal_str d))
  | _ => Returns obj
  end.

(** [Model.to_dict(encode_json=True)] *)
Definition Model_to_dict (self : dataclass) (encode_json : option bool)
    : outcome py_exn pyval :=
  let encode_json := default true encode_json in
  match mixin_to_dict self encode_json with
  | Raises e => Raises e
  | Returns dct => _asdict dct
  end.

End Model.

(** *** The rendering the specification asks for

    Written from the specification of the serialization collaborator: an
    enumeration renders as its underlying value, a unique identifier as its
    canonical string, a decimal as its exact string; lists render element by
    element, and a dict renders as the dict of its rendered items (whose keys
    must be hashable); every other value renders as itself. *)

(** [dict(pairs)] *)
Definition dict_of_items `{PyKeys} (pairs : list (pyval * pyval)) : list (pyval * pyval) :=
  fold_left (fun acc kv => dict_setitem acc (fst kv) (snd kv)) pairs [].

Definition passes_through (obj : pyval) : bool :=
  match obj with
  | PDict _ | PList _ | PEnum _ _ _ | PUUID _ | PDecimal _ => false
  | _ => true
  end.

Inductive renders `{PyKeys} : pyval -> pyval -> Prop :=
| renders_enum cls member value :
    renders (PEnum cls member value) value
| renders_uuid u :
    renders (PUUID u) (PStr (UUID_str u))
| renders_decimal d :
    renders (PDecimal d) (PStr (Decimal_str d))
| renders_list elems elems' :
    Forall2 renders elems elems' ->
    renders (PList elems) (PList elems')
| renders_dict items items' :
    Forall2 (fun kv kv' => renders (fst kv) (fst kv') /\ renders (snd kv) (snd kv'))
      items items' ->
    Forall (fun kv' => hashable (fst kv') = true) items' ->
    renders (PDict items) (PDict (dict_of_items items'))
| renders_other obj :
    passes_through obj = true ->
    renders obj obj.

(** *** Reading the string of a decimal *)

Definition is_digit (c : ascii) : bool :=
  match c with
  | "0" | "1" | "2" | "3" | "4" | "5" | "6" | "7" | "8" | "9" => true
  | _ => false
  end%char.

Fixpoint all_digits (s : string) : bool :=
  match s with
  | EmptyString => true
  | String c rest => is_digit c && all_digits rest
  end.

(** The digits of a [Decimal] as its constructor leaves them: at least one
    digit, and no leading zero but for the number zero itself. *)
Definition canonical_digits (s : string) : bool :=
  match s with
  | EmptyString => false
  | String c rest =>
      all_digits s
      && (negb (Ascii.eqb c "0") || match rest with EmptyString => true | _ => false end)
  end.

(** [s.partition(c)]: what precedes the first [c], and what follows it if
    there is one. *)
Fixpoint str_partition (c : ascii) (s : string) : string * option string :=
  match s with
  | EmptyString => ("", None)
  | String x rest =>
      if Ascii.eqb x c then ("", Some rest)
      else let '(before, after) := str_partition c rest in (String x before, after)
  end.

(** [s.lstrip("0") or "0"] *)
Fixpoint lstrip_zeros (s : string) : string :=
  match s with
  | String c rest => if Ascii.eqb c "0" then lstrip_zeros rest else s
  | EmptyString => s
  end.
Definition strip_zeros (s : string) : string :=
  match lstrip_zeros s with
  | EmptyString => "0"
  | stripped => stripped
  end.

(** The parts of the string of a number: the sign, the digits before the
    point, the digits after it and what follows an [E]. *)
Definition decimal_parts (s : string) : bool * string * string * option string :=
  let '(sign, unsigned) :=
    match s with
    | String c rest => if Ascii.eqb c "-" then (true, rest) else (false, s)
    | EmptyString => (false, s)
    end in
  let '(mantissa, exponent) := str_partition "E" unsigned in
  let '(intpart, fracpart) := str_partition "." mantissa in
  (sign, intpart, default "" fracpart, exponent).

(** *** Shapes of values *)

(** No enumeration, identifier or decimal at a place [_asdict] visits: the
    value itself, the elements of a list, the keys and the values of a
    dict. *)
Fixpoint json_plain (obj : pyval) : bool :=
  match obj with
  | PEnum _ _ _ | PUUID _ | PDecimal _ => false
  | PList elems => forallb json_plain elems
  | PDict items =>
      forallb (fun kv => let '(k, v) := kv in json_plain k && json_plain v) items
  | _ => true
  end.

(** Every enumeration at a place [_asdict] visits has a [json_plain]
    value. *)
Fixpoint enum_values_plain (obj : pyval) : bool :=
  match obj with
  | PEnum _ _ value => json_plain value
  | PList elems => forallb enum_values_plain elems
  | PDict items =>
      forallb
        (fun kv => let '(k, v) := kv in enum_values_plain k && enum_values_plain v)
        items
  | _ => true
  end.

(** No key of the items equals a later one. *)
Fixpoint keys_distinct `{PyKeys} (items : list (pyval * pyval)) : bool :=
  match items with
  | [] => true
  | (k, _) :: rest =>
      forallb (fun kv => negb (key_eq k (fst kv))) rest && keys_distinct rest
  end.

(** The dicts at the places [_asdict] visits are as Python builds them:
    their keys are hashable and pairwise different. *)
Fixpoint dicts_well_formed `{PyKeys} (obj : pyval) : bool :=
  match obj with
  | PList elems => forallb dicts_well_formed elems
  | PDict items =>
      forallb
        (fun kv => let '(k, v) := kv in hashable k && dicts_well_formed v) items
      && keys_distinct items
  | _ => true
  end.

(** *** Values for examples *)

Module Sample.

(** Key equality on the scalar keys of the examples: strings and integers
    by value, nothing else equal. *)
#[export] Instance keys : PyKeys := {|
  key_eq a b :=
    match a, b with
    | PStr x, PStr y => String.eqb x y
    | PInt x, PInt y => Z.eqb x y
    | _, _ => false
    end;
|}.

(** A mixin whose [to_dict] lists the fields of the instance by name. *)
#[export] Instance mixin : DataClassJson := {|
  dataclass := list (string * pyval);
  mixin_to_dict self _ := Returns (PDict (map (fun f => (PStr (fst f), snd f)) self));
|}.

Definition price : Decimal := mkDecimal false "1999" (Finite (-2)).
Definition ident : UUID := mkUUID 0x12345678123456781234567812345678.

(** An order with an identifier, a status enumeration and a list of
    prices. *)
Definition order : list (string * pyval) :=
  [("id", PUUID ident);
   ("status", PEnum "Status" "PAID" (PStr "paid"));
   ("prices", PList [PDecimal price; PInt 3])].

End Sample.


(** What one run of a client hands to its library and logs. *)
Section Sent.
Context `{HT : HttpTypes}.

(** The URLs of the calls [m] hands over when run from [w]. *)
Definition urls_sent {A} (m : M world http_exn A) (w : world) : list string :=
  map (fun lc => c_url (snd lc)) (calls_made m w).

(** The header mappings of the calls [m] hands over when run from [w]. *)
Definition headers_sent {A} (m : M world http_exn A) (w : world) : list Headers :=
  map (fun lc => c_headers (snd lc)) (calls_made m w).

(** The first argument, the correlation tag, of each [logger.debug] call
    that [m] makes when run from [w]. *)
Definition tags_logged {A} (m : M world http_exn A) (w : world) : list (option log_arg) :=
  map (fun r => head (log_args r)) (logged m w).

(** The method and the body of each call [m] hands over when run from
    [w]. *)
Definition methods_sent {A} (m : M world http_exn A) (w : world)
    : list (string * option payload) :=
  map (fun lc => (c_method (snd lc), c_data (snd lc))) (calls_made m w).

(** The redirect flag and the timeout of each call [m] hands over when run
    from [w]. *)
Definition options_sent {A} (m : M world http_exn A) (w : world)
    : list (bool * option duration) :=
  map (fun lc => (c_allow_redirects (snd lc), c_timeout (snd lc)))
    (calls_made m w).

(** The network [m] leaves behind when run from [w]. *)
Definition net_after {A} (m : M world http_exn A) (w : world) : net :=
  w_net (snd (m w)).

(** What [m] does when run from [w], in the order it does it. *)
Definition events_of {A} (m : M world http_exn A) (w : world) : list event :=
  drop (length (w_events w)) (w_events (snd (m w))).

End Sent.

(** * Properties *)

(** ** Strings *)

Lemma append_cons (x : ascii) (a b : string) :
  String x a +:+ b = String x (a +:+ b).
Proof. reflexivity. Qed.

Lemma append_empty_l (a : string) : "" +:+ a = a.
Proof. reflexivity. Qed.

Lemma append_assoc (a b c : string) : (a +:+ b) +:+ c = a +:+ b +:+ c.
Proof.
  induction a as [|x a IH]; [reflexivity |].
  rewrite !append_cons. now f_equal.
Qed.

Lemma append_empty_r (a : string) : a +:+ "" = a.
Proof.
  induction a as [|x a IH]; [reflexivity |].
  rewrite append_cons. now f_equal.
Qed.

Lemma truthy_append_r (a b : string) :
  Py.truthy b = true -> Py.truthy (a +:+ b) = true.
Proof. destruct a; [now rewrite append_empty_l | reflexivity]. Qed.

(** ** The URL of a request *)

(** [host:port] is never the empty string. *)
Lemma netloc_truthy (h : string) (p : Z) :
  Py.truthy (Py.join ":" [h; Py.str_int p]) = true.
Proof. cbn [Py.join]. apply truthy_append_r. reflexivity. Qed.

(** With a network location, [urlunparse] of a path and a query puts the
    scheme and [//] in front, makes the path absolute and appends the query
    after a question mark. *)
Lemma urlunparse_shape (scheme h : string) (p : Z) (path query : string) :
  UrlLib.urlunparse
    (scheme, Py.join ":" [h; Py.str_int p], path, "", query, "") =
  (if Py.truthy scheme then scheme +:+ ":" else "") +:+
  "//" +:+ h +:+ ":" +:+ Py.str_int p +:+
  (if Py.truthy path && negb (String.eqb (Py.slice_to 1 path) "/")
   then "/" +:+ path else path) +:+
  (if Py.truthy query then "?" +:+ query else "").
Proof.
  unfold UrlLib.urlunparse, UrlLib.urlunsplit.
  rewrite netloc_truthy. cbn [Py.truthy orb Py.join].
  set (path' := if Py.truthy path && _ then _ else _).
  destruct (Py.truthy scheme), (Py.truthy query);
    rewrite ?append_assoc, ?append_empty_l, ?append_empty_r; reflexivity.
Qed.

(** ** One run of a client *)

Section HttpProperties.
Context `{HT : HttpTypes} {RQ : Requests} {AIO : Aiohttp}.

(** Splits on the outcome of every library call in the goal. *)
Ltac library_cases :=
  repeat match goal with
         | |- context [match ?m (w_net ?w) with _ => _ end] =>
             let r := fresh "r" in
             let n := fresh "n" in
             let E := fresh "E" in
             destruct (m (w_net w)) as [[r|r] n] eqn:E; cbn
         | |- context [match ?m ?s with _ => _ end] =>
             lazymatch type of s with
             | net =>
                 let r := fresh "r" in
                 let n := fresh "n" in
                 let E := fresh "E" in
                 destruct (m s) as [[r|r] n] eqn:E; cbn
             end
         end.

(** Runs the non-blocking client symbolically, the URL kept folded. *)
Ltac run_async :=
  unfold result_of, calls_made, logged, Async_request;
  set (url := UrlLib.urlunparse _); clearbody url;
  unfold with_exit, bind, logger_debug, hand_over, on_net, ret; cbn.

(** The blocking client: one [logger.debug], one call handed to [requests],
    and then either a second [logger.debug] and the response's four
    attributes, or the exception of [requests]. *)
Lemma Sync_request_run (self : HttpClient) (method path query : string)
    (data : option payload) (request_id : string) (hdrs : option Headers)
    (allow_redirects : bool) (timeout : option duration) (w : world) :
  Sync_request self method path query data request_id hdrs allow_redirects
    timeout w =
  let url :=
    UrlLib.urlunparse
      (_scheme self, Py.join ":" [host self; Py.str_int (port self)],
       path, "", query, "") in
  let tag := if Py.truthy request_id then " [" +:+ request_id +:+ "]" else "" in
  let call :=
    mkCall method url data
      (match hdrs with Some h => h | None => headers self end)
      allow_redirects timeout in
  let outbound :=
    mkLog "--->%s HTTP %s %s %s"
      [LStr tag; LStr method; LStr url; data_or_empty data] in
  match requests_request call (w_net w) with
  | (Returns r, n) =>
      (Returns (status_code r, content r, response_headers r, cookies r),
       mkWorld n
         (w_log w ++
          [outbound;
           mkLog "<---%s HTTP %s %s code=%s data=%s"
             [LStr tag; LStr method; LStr url; LInt (status_code r);
              LBytes (content r)]])
         (w_wire w ++ [(ViaRequests, call)])
         (w_events w ++
          [Logged outbound; HandedOver ViaRequests call;
           Logged
             (mkLog "<---%s HTTP %s %s code=%s data=%s"
                [LStr tag; LStr method; LStr url; LInt (status_code r);
                 LBytes (content r)])]))
  | (Raises e, n) =>
      (Raises (TransportError e),
       mkWorld n (w_log w ++ [outbound]) (w_wire w ++ [(ViaRequests, call)])
         (w_events w ++ [Logged outbound; HandedOver ViaRequests call]))
  end.
Proof.
  unfold Sync_request, bind, logger_debug, hand_over, on_net, ret. cbn.
  library_cases; rewrite <- ?app_assoc; reflexivity.
Qed.

(** The call the blocking client hands over, whatever becomes of it. *)
Lemma Sync_request_calls (self : HttpClient) (method path query : string)
    (data : option payload) (request_id : string) (hdrs : option Headers)
    (allow_redirects : bool) (timeout : option duration) (w : world) :
  calls_made
    (Sync_request self method path query data request_id hdrs allow_redirects
       timeout) w =
  [(ViaRequests,
    mkCall method
      (UrlLib.urlunparse
         (_scheme self, Py.join ":" [host self; Py.str_int (port self)],
          path, "", query, ""))
      data (match hdrs with Some h => h | None => headers self end)
      allow_redirects timeout)].
Proof.
  unfold calls_made. rewrite Sync_request_run. cbn.
  library_cases; apply drop_app_length.
Qed.

(** The call the non-blocking client hands over, whatever becomes of it. *)
Lemma Async_request_calls (self : HttpClient) (method path query : string)
    (data : option payload) (request_id : string) (hdrs : option Headers)
    (allow_redirects : bool) (timeout : option duration) (w : world) :
  calls_made
    (Async_request self method path query data request_id hdrs allow_redirects
       timeout) w =
  [(ViaAiohttp (mkTCPConnector false),
    mkCall method
      (UrlLib.urlunparse
         (_scheme self, Py.join ":" [host self; Py.str_int (port self)],
          path, "", query, ""))
      data (match hdrs with Some h => h | None => headers self end)
      allow_redirects timeout)].
Proof.
  run_async. library_cases; apply drop_app_length.
Qed.


(** What the non-blocking client returns was produced by [aiohttp]: the
    status of the response of [session.request] and the body [read] from
    it. *)
Lemma Async_request_returns (self : HttpClient) (method path query : string)
    (data : option payload) (request_id : string) (hdrs : option Headers)
    (allow_redirects : bool) (timeout : option duration) (w : world)
    (code : Z) (body : bytes) :
  result_of
    (Async_request self method path query data request_id hdrs allow_redirects
       timeout) w = Returns (code, body) ->
  exists (resp : ClientResponse) (n1 n2 : net),
    session_request (mkTCPConnector false)
      (mkCall method
         (UrlLib.urlunparse
            (_scheme self, Py.join ":" [host self; Py.str_int (port self)],
             path, "", query, ""))
         data (match hdrs with Some h => h | None => headers self end)
         allow_redirects timeout) (w_net w) = (Returns resp, n1) /\
    read resp n1 = (Returns body, n2) /\
    code = status resp.
Proof.
  run_async. library_cases; intros H; inversion H; subst.
  exists r, n, n0. auto.
Qed.



(** ** The request builder *)

(** C1.  For a configuration with a scheme and an absolute path, the URL
    that the blocking and the non-blocking client hand to their transport is
    [scheme://host:port] followed by the path and, when there is a query,
    by [?] and the query exactly as the caller gave it: the components are
    joined and nothing is encoded or normalised. *)
Theorem url_reassembles_components (self : HttpClient)
    (method path query : string) (data : option payload)
    (request_id : string) (hdrs : option Headers) (allow_redirects : bool)
    (timeout : option duration) (w w' : world) :
  Py.truthy (_scheme self) = true ->
  Py.slice_to 1 path = "/" ->
  urls_sent
    (Sync_request self method path query data request_id hdrs allow_redirects
       timeout) w =
  [_scheme self +:+ "://" +:+ host self +:+ ":" +:+ Py.str_int (port self) +:+
   path +:+ (if Py.truthy query then "?" +:+ query else "")] /\
  urls_sent
    (Async_request self method path query data request_id hdrs allow_redirects
       timeout) w' =
  [_scheme self +:+ "://" +:+ host self +:+ ":" +:+ Py.str_int (port self) +:+
   path +:+ (if Py.truthy query then "?" +:+ query else "")].
Proof.
  intros Hscheme Hpath.
  unfold urls_sent. rewrite Sync_request_calls, Async_request_calls.
  cbn [map snd c_url]. rewrite urlunparse_shape.
  rewrite Hscheme, Hpath.
  rewrite String.eqb_refl, andb_false_r, append_assoc.
  split; reflexivity.
Qed.

(** C2.  Headers given by the caller are the headers sent, whatever the
    configuration holds; without them the headers sent are the ones the
    configuration holds at the time of the call, also after the [headers]
    setter replaced them.  Both clients do the same. *)
Theorem headers_all_or_nothing (self : HttpClient)
    (method path query : string) (data : option payload)
    (request_id : string) (allow_redirects : bool)
    (timeout : option duration) (given replaced : Headers) (w : world) :
  headers_sent
    (Sync_request self method path query data request_id (Some given)
       allow_redirects timeout) w = [given] /\
  headers_sent
    (Async_request self method path query data request_id (Some given)
       allow_redirects timeout) w = [given] /\
  headers_sent
    (Sync_request self method path query data request_id None
       allow_redirects timeout) w = [headers self] /\
  headers_sent
    (Async_request self method path query data request_id None
       allow_redirects timeout) w = [headers self] /\
  headers_sent
    (Sync_request (set_headers self replaced) method path query data
       request_id None allow_redirects timeout) w = [replaced] /\
  headers_sent
    (Async_request (set_headers self replaced) method path query data
       request_id None allow_redirects timeout) w = [replaced].
Proof.
  unfold headers_sent.
  rewrite !Sync_request_calls, !Async_request_calls.
  repeat split; reflexivity.
Qed.

(** C9.  Every diagnostic line of a request starts with the correlation
    tag: the empty string when the correlation id is empty, and otherwise
    the id in square brackets after a separating blank.  Both clients log at
    least the outbound line, with the same tag. *)
Theorem correlation_tag (self : HttpClient)
    (method path query : string) (data : option payload)
    (request_id : string) (hdrs : option Headers) (allow_redirects : bool)
    (timeout : option duration) (w w' : world) :
  tags_logged
    (Sync_request self method path query data request_id hdrs allow_redirects
       timeout) w <> [] /\
  tags_logged
    (Async_request self method path query data request_id hdrs allow_redirects
       timeout) w' <> [] /\
  (request_id = "" /\
   Forall (eq (Some (LStr "")))
     (tags_logged
        (Sync_request self method path query data request_id hdrs
           allow_redirects timeout) w ++
      tags_logged
        (Async_request self method path query data request_id hdrs
           allow_redirects timeout) w')
   \/
   request_id <> "" /\
   Forall (eq (Some (LStr (" [" +:+ request_id +:+ "]"))))
     (tags_logged
        (Sync_request self method path query data request_id hdrs
           allow_redirects timeout) w ++
      tags_logged
        (Async_request self method path query data request_id hdrs
           allow_redirects timeout) w')).
Proof.
  assert (Hs : exists rest,
    tags_logged
      (Sync_request self method path query data request_id hdrs
         allow_redirects timeout) w =
    Some (LStr (if Py.truthy request_id then " [" +:+ request_id +:+ "]" else ""))
    :: rest /\
    Forall (eq (Some (LStr (if Py.truthy request_id
                            then " [" +:+ request_id +:+ "]" else "")))) rest).
  { unfold tags_logged, logged. rewrite Sync_request_run. cbn zeta.
    library_cases; rewrite drop_app_length; cbn; eauto. }
  assert (Ha : exists rest,
    tags_logged
      (Async_request self method path query data request_id hdrs
         allow_redirects timeout) w' =
    Some (LStr (if Py.truthy request_id then " [" +:+ request_id +:+ "]" else ""))
    :: rest /\
    Forall (eq (Some (LStr (if Py.truthy request_id
                            then " [" +:+ request_id +:+ "]" else "")))) rest).
  { unfold tags_logged. run_async.
    library_cases; rewrite <- ?app_assoc, drop_app_length; cbn; eauto. }
  destruct Hs as (rs & -> & Hrs), Ha as (ra & -> & Hra).
  split; [discriminate |]. split; [discriminate |].
  destruct request_id as [|c rid]; [left | right]; (split; [congruence |]);
    cbn [Py.truthy] in *; apply Forall_app; split; constructor; auto.
Qed.

(** ** The response contract *)


(** C3.  When the two libraries speak to the same responder and both
    clients succeed on the same request, they return the same status code
    and the same body; the blocking client returns, in addition, the headers
    and the cookies of the response of [requests]. *)
Theorem blocking_and_nonblocking_agree (self : HttpClient)
    (method path query : string) (data : option payload)
    (request_id : string) (hdrs : option Headers) (allow_redirects : bool)
    (timeout : option duration) (w w' : world)
    (code code' : Z) (body body' : bytes)
    (ret_headers : CaseInsensitiveDict) (jar : RequestsCookieJar) :
  same_responder ->
  result_of
    (Sync_request self method path query data request_id hdrs allow_redirects
       timeout) w = Returns (code, body, ret_headers, jar) ->
  result_of
    (Async_request self method path query data request_id hdrs allow_redirects
       timeout) w' = Returns (code', body') ->
  code = code' /\ body = body' /\
  exists (call : Call) (r : Response),
    calls_made
      (Sync_request self method path query data request_id hdrs
         allow_redirects timeout) w = [(ViaRequests, call)] /\
    fst (requests_request call (w_net w)) = Returns r /\
    ret_headers = response_headers r /\ jar = cookies r.
Proof.
  intros Hsame Hsync Hasync.
  apply Async_request_returns in Hasync as (resp & n1 & n2 & Hreq & Hread & ->).
  unfold result_of in Hsync. rewrite Sync_request_run in Hsync. cbn zeta in Hsync.
  destruct (requests_request _ (w_net w)) as [[r|e] n] eqn:E;
    cbn in Hsync; [| discriminate].
  injection Hsync as <- <- <- <-.
  destruct (Hsame _ _ _ _ _ _ _ _ _ _ E Hreq Hread) as [Hcode Hbody].
  split; [exact Hcode |]. split; [exact Hbody |].
  eexists _, r. split; [apply Sync_request_calls |].
  rewrite E. auto.
Qed.

(** ** Further properties of the clients *)

(** X1.  Whatever the scheme, the path and the query, the URL both clients
    send holds [//host:port]: the network location is never empty.  An empty
    scheme adds no [scheme:] in front, a path that is not empty and does not
    start with a slash is given one, and an empty query adds no question
    mark. *)
Theorem url_always_has_network_location (self : HttpClient)
    (method path query : string) (data : option payload)
    (request_id : string) (hdrs : option Headers) (allow_redirects : bool)
    (timeout : option duration) (w w' : world) :
  urls_sent
    (Sync_request self method path query data request_id hdrs allow_redirects
       timeout) w =
  [(if Py.truthy (_scheme self) then _scheme self +:+ ":" else "") +:+
   "//" +:+ host self +:+ ":" +:+ Py.str_int (port self) +:+
   (if Py.truthy path && negb (String.eqb (Py.slice_to 1 path) "/")
    then "/" +:+ path else path) +:+
   (if Py.truthy query then "?" +:+ query else "")] /\
  urls_sent
    (Async_request self method path query data request_id hdrs allow_redirects
       timeout) w' =
  urls_sent
    (Sync_request self method path query data request_id hdrs allow_redirects
       timeout) w.
Proof.
  unfold urls_sent. rewrite Sync_request_calls, Async_request_calls.
  cbn [map snd c_url]. rewrite urlunparse_shape. split; reflexivity.
Qed.

(** X2.  Each verb of the blocking client hands over one call with its own
    method; [get] sends no body, the other four send the body they are given;
    headers, redirect flag and timeout are those of [request] with the same
    arguments, and so is the URL. *)
Theorem sync_verbs_fix_the_method (self : HttpClient) (path query : string)
    (data : option payload) (request_id : string) (hdrs : option Headers)
    (allow_redirects : bool) (timeout : option duration) (w : world) :
  Forall
    (fun '(run, verb, body) =>
       methods_sent run w = [(verb, body)] /\
       headers_sent run w =
         [match hdrs with Some h => h | None => headers self end] /\
       options_sent run w = [(allow_redirects, timeout)] /\
       urls_sent run w =
         urls_sent
           (Sync_request self verb path query body request_id hdrs
              allow_redirects timeout) w)
    [(Sync_get self path query request_id hdrs allow_redirects timeout,
      "GET", None);
     (Sync_post self path query data request_id hdrs allow_redirects timeout,
      "POST", data);
     (Sync_patch self path query data request_id hdrs allow_redirects timeout,
      "PATCH", data);
     (Sync_put self path query data request_id hdrs allow_redirects timeout,
      "PUT", data);
     (Sync_delete self path query data request_id hdrs allow_redirects timeout,
      "DELETE", data)].
Proof.
  unfold Sync_get, Sync_post, Sync_patch, Sync_put, Sync_delete.
  unfold methods_sent, headers_sent, options_sent, urls_sent.
  repeat constructor; rewrite !Sync_request_calls; reflexivity.
Qed.

(** X3.  The same for the non-blocking client: one call per verb, with the
    verb's method, no body for [get], and everything else as [request]
    builds it. *)
Theorem async_verbs_fix_the_method (self : HttpClient) (path query : string)
    (data : option payload) (request_id : string) (hdrs : option Headers)
    (allow_redirects : bool) (timeout : option duration) (w : world) :
  Forall
    (fun '(run, verb, body) =>
       methods_sent run w = [(verb, body)] /\
       headers_sent run w =
         [match hdrs with Some h => h | None => headers self end] /\
       options_sent run w = [(allow_redirects, timeout)] /\
       urls_sent run w =
         urls_sent
           (Async_request self verb path query body request_id hdrs
              allow_redirects timeout) w)
    [(Async_get self path query request_id hdrs allow_redirects timeout,
      "GET", None);
     (Async_post self path query data request_id hdrs allow_redirects timeout,
      "POST", data);
     (Async_patch self path query data request_id hdrs allow_redirects timeout,
      "PATCH", data);
     (Async_put self path query data request_id hdrs allow_redirects timeout,
      "PUT", data);
     (Async_delete self path query data request_id hdrs allow_redirects timeout,
      "DELETE", data)].
Proof.
  unfold Async_get, Async_post, Async_patch, Async_put, Async_delete.
  unfold methods_sent, headers_sent, options_sent, urls_sent.
  repeat constructor; rewrite !Async_request_calls; reflexivity.
Qed.

(** X4.  The blocking client first logs the outbound line, with the
    correlation tag, the method, the URL and the body or, without one, the
    empty string; then it hands the call to [requests]; and only when
    [requests] returned it logs the inbound line, with the status code and the
    body it returns.  It touches the network through that one call only. *)
Theorem sync_request_log_lines (self : HttpClient)
    (method path query : string) (data : option payload)
    (request_id : string) (hdrs : option Headers) (allow_redirects : bool)
    (timeout : option duration) (w : world) :
  exists (url : string) (tag : log_arg) (call : Call),
    tag = LStr (if Py.truthy request_id
                then " [" +:+ request_id +:+ "]" else "") /\
    calls_made
      (Sync_request self method path query data request_id hdrs
         allow_redirects timeout) w = [(ViaRequests, call)] /\
    c_url call = url /\
    net_after
      (Sync_request self method path query data request_id hdrs
         allow_redirects timeout) w = snd (requests_request call (w_net w)) /\
    logged
      (Sync_request self method path query data request_id hdrs
         allow_redirects timeout) w =
    mkLog "--->%s HTTP %s %s %s"
      [tag; LStr method; LStr url;
       match data with Some d => LData d | None => LStr "" end]
    :: match
         result_of
           (Sync_request self method path query data request_id hdrs
              allow_redirects timeout) w
       with
       | Returns (code, body, _, _) =>
           [mkLog "<---%s HTTP %s %s code=%s data=%s"
              [tag; LStr method; LStr url; LInt code; LBytes body]]
       | Raises _ => []
       end /\
    events_of
      (Sync_request self method path query data request_id hdrs
         allow_redirects timeout) w =
    Logged
      (mkLog "--->%s HTTP %s %s %s"
         [tag; LStr method; LStr url;
          match data with Some d => LData d | None => LStr "" end])
    :: HandedOver ViaRequests call
    :: match
         result_of
           (Sync_request self method path query data request_id hdrs
              allow_redirects timeout) w
       with
       | Returns (code, body, _, _) =>
           [Logged
              (mkLog "<---%s HTTP %s %s code=%s data=%s"
                 [tag; LStr method; LStr url; LInt code; LBytes body])]
       | Raises _ => []
       end.
Proof.
  eexists _, _, _. split; [reflexivity |].
  split; [apply Sync_request_calls |]. split; [reflexivity |].
  unfold net_after, logged, events_of, result_of.
  rewrite Sync_request_run. cbn zeta.
  library_cases; rewrite !drop_app_length; repeat split; reflexivity.
Qed.

(** X5.  The non-blocking client always leaves its session: the network it
    leaves behind is the one the exit of the session left, whether the call
    returned or raised.  A response it obtained is always released first,
    also when reading its body raised. *)
Theorem async_request_always_leaves_session (self : HttpClient)
    (method path query : string) (data : option payload)
    (request_id : string) (hdrs : option Headers) (allow_redirects : bool)
    (timeout : option duration) (w : world) :
  exists call : Call,
    calls_made
      (Async_request self method path query data request_id hdrs
         allow_redirects timeout) w =
    [(ViaAiohttp (mkTCPConnector false), call)] /\
    match session_request (mkTCPConnector false) call (w_net w) with
    | (Raises _, n1) =>
        net_after
          (Async_request self method path query data request_id hdrs
             allow_redirects timeout) w =
        snd (session_aexit (mkTCPConnector false) n1)
    | (Returns resp, n1) =>
        net_after
          (Async_request self method path query data request_id hdrs
             allow_redirects timeout) w =
        snd (session_aexit (mkTCPConnector false)
               (snd (response_aexit resp (snd (read resp n1)))))
    end.
Proof.
  eexists. split; [apply Async_request_calls |].
  unfold net_after. run_async. library_cases; reflexivity.
Qed.

(** X6.  When the body cannot be read, the non-blocking client raises: the
    exception of [read], unless releasing the response or leaving the session
    raised in its turn, in which case the last of these.  All it has done by
    then is to log the outbound line, with the correlation tag, the method,
    the URL and the body, and to hand the call to [aiohttp]: no inbound line
    is logged. *)
Theorem async_request_read_failure (self : HttpClient)
    (method path query : string) (data : option payload)
    (request_id : string) (hdrs : option Headers) (allow_redirects : bool)
    (timeout : option duration) (w : world) :
  exists call : Call,
    calls_made
      (Async_request self method path query data request_id hdrs
         allow_redirects timeout) w =
    [(ViaAiohttp (mkTCPConnector false), call)] /\
    forall (resp : ClientResponse) (e : transport_error) (n1 n2 : net),
      session_request (mkTCPConnector false) call (w_net w) =
        (Returns resp, n1) ->
      read resp n1 = (Raises e, n2) ->
      result_of
        (Async_request self method path query data request_id hdrs
           allow_redirects timeout) w =
      Raises (TransportError
                match fst (response_aexit resp n2),
                      fst (session_aexit (mkTCPConnector false)
                             (snd (response_aexit resp n2)))
                with
                | _, Raises e2 => e2
                | Raises e1, Returns _ => e1
                | Returns _, Returns _ => e
                end) /\
      logged
        (Async_request self method path query data request_id hdrs
           allow_redirects timeout) w =
      [mkLog "--->%s HTTP %s %s %s"
         [LStr (if Py.truthy request_id
                then " [" +:+ request_id +:+ "]" else "");
          LStr method; LStr (c_url call);
          match data with Some d => LData d | None => LStr "" end]] /\
      events_of
        (Async_request self method path query data request_id hdrs
           allow_redirects timeout) w =
      [Logged
         (mkLog "--->%s HTTP %s %s %s"
            [LStr (if Py.truthy request_id
                   then " [" +:+ request_id +:+ "]" else "");
             LStr method; LStr (c_url call);
             match data with Some d => LData d | None => LStr "" end]);
       HandedOver (ViaAiohttp (mkTCPConnector false)) call].
Proof.
  eexists. split; [apply Async_request_calls |].
  unfold events_of. run_async.
  intros resp e n1 n2 Hreq Hread. rewrite Hreq. cbn.
  rewrite Hread. cbn.
  library_cases; rewrite <- ?app_assoc, ?drop_app_length;
    repeat split; reflexivity.
Qed.

End HttpProperties.

(** ** The configuration *)

(** The built-in headers are the pair [Content-Type], [Accept]. *)
Lemma default_headers_lookup (k : string) :
  default_headers !! k =
  if decide (k = "Accept") then Some "application/json"
  else if decide (k = "Content-Type") then Some "application/json"
  else None.
Proof.
  unfold default_headers.
  destruct (decide (k = "Accept")) as [-> | Ha];
    [apply lookup_insert_eq | rewrite lookup_insert_ne by congruence].
  destruct (decide (k = "Content-Type")) as [-> | Hc];
    [apply lookup_insert_eq | rewrite lookup_insert_ne by congruence].
  apply lookup_empty.
Qed.

Lemma default_headers_nonempty : default_headers ≠ ∅.
Proof.
  intros H. pose proof (default_headers_lookup "Accept") as L.
  rewrite H, lookup_empty in L. discriminate.
Qed.

(** C10.  A client constructed with the empty mapping holds the built-in
    headers [Content-Type: application/json] and [Accept: application/json],
    as one constructed without headers does; no construction yields a client
    with no default headers; the caller's mapping is stored exactly when it
    is not empty. *)
Theorem empty_headers_fall_back (hostname : string) (portno : option Z)
    (scheme : option string) :
  headers (HttpClient_init hostname portno scheme (Some ∅)) = default_headers /\
  headers (HttpClient_init hostname portno scheme None) = default_headers /\
  default_headers !! "Content-Type" = Some "application/json" /\
  default_headers !! "Accept" = Some "application/json" /\
  dom default_headers = ({["Content-Type"; "Accept"]} : gset string) /\
  (forall given : option Headers,
     headers (HttpClient_init hostname portno scheme given) ≠ ∅) /\
  (forall given : Headers,
     headers (HttpClient_init hostname portno scheme (Some given)) = given <->
     given ≠ ∅).
Proof.
  assert (Hinit : forall given : Headers,
    headers (HttpClient_init hostname portno scheme (Some given)) =
    if decide (given = ∅) then default_headers else given).
  { intros given. unfold headers, HttpClient_init, dict_truthy. cbn.
    case_bool_decide; case_decide; congruence. }
  split; [| split; [| split; [| split; [| split; [| split]]]]].
  - rewrite Hinit. case_decide; congruence.
  - reflexivity.
  - rewrite default_headers_lookup. reflexivity.
  - rewrite default_headers_lookup. reflexivity.
  - unfold default_headers. rewrite !dom_insert_L, dom_empty_L. set_solver.
  - intros [given|]; [| apply default_headers_nonempty].
    rewrite Hinit. case_decide; [apply default_headers_nonempty | assumption].
  - intros given. rewrite Hinit. case_decide as E.
    + split; [| congruence]. intros H. rewrite E in H.
      destruct (default_headers_nonempty H).
    + tauto.
Qed.

(** ** The clients against the example responder *)

Section AgainstLoopback.
Import Loopback.

Lemma url_reassembles_components_witness :
  Py.truthy (_scheme Loopback.client) = true /\
  Py.slice_to 1 "/status" = "/" /\
  urls_sent
    (Sync_request Loopback.client "GET" "/status" "a=1&b=%20" None "" None
       true None) Loopback.fresh =
  ["http://example.org:8080/status?a=1&b=%20"] /\
  urls_sent
    (Async_request Loopback.client "GET" "/status" "a=1&b=%20" None "" None
       true None) Loopback.fresh =
  ["http://example.org:8080/status?a=1&b=%20"].
Proof.
  split; [reflexivity |]. split; [reflexivity |].
  apply (url_reassembles_components (HT := types) (RQ := requests)
           (AIO := aiohttp) Loopback.client "GET" "/status"
           "a=1&b=%20" None "" None true None Loopback.fresh Loopback.fresh);
    reflexivity.
Defined.

(** The two example libraries answer from the same function of the call. *)
Lemma Loopback_same_responder : same_responder.
Proof.
  intros call connector n n' n1 n2 n3 r resp body Hr Hs Hb.
  cbn in Hr, Hs, Hb.
  destruct (Loopback.respond call) as [[code content]|e];
    inversion Hr; inversion Hs; inversion Hb; subst. auto.
Qed.

Lemma blocking_and_nonblocking_agree_witness :
  (201 : Z) = 201 /\ [x7b; x7d] = [x7b; x7d] /\
  exists (call : Call) (r : Response),
    calls_made
      (Sync_request Loopback.client "POST" "/items" "" (Some [x7b; x7d]) "r1"
         None true None) Loopback.fresh = [(ViaRequests, call)] /\
    fst (requests_request call (w_net Loopback.fresh)) = Returns r /\
    [("Server", "loopback")] = response_headers r /\ [] = cookies r.
Proof.
  apply (blocking_and_nonblocking_agree (HT := types) (RQ := requests)
           (AIO := aiohttp) Loopback.client "POST" "/items" ""
           (Some [x7b; x7d]) "r1" None true None Loopback.fresh Loopback.fresh
           201 201 [x7b; x7d] [x7b; x7d] [("Server", "loopback")] []
           Loopback_same_responder);
    reflexivity.
Defined.

End AgainstLoopback.

(** ** The RabbitMQ wrapper *)

Section MqProperties.
Context `{PT : PikaTypes} {PK : Pika}.

(** Splits on the outcome of every pika call in the goal. *)
Ltac pika_cases :=
  repeat match goal with
         | |- context [match ?m ?s with _ => _ end] =>
             lazymatch type of s with
             | amqp =>
                 let r := fresh "r" in
                 let s' := fresh "s" in
                 let E := fresh "E" in
                 destruct (m s) as [[r|r] s'] eqn:E; cbn
             end
         | |- context [if is_open ?ch ?s then _ else _] =>
             let O := fresh "O" in
             destruct (is_open ch s) eqn:O; cbn
         end.

Ltac run_mq :=
  unfold mq_result, mq_calls_made, amqp_after, RabbitMQClient_publish,
    RabbitMQClient_get, RabbitMQClient_channel, get_rabbitmq, bind, pika,
    channel_is_open, mq_debug, raise, ret; cbn.

(** [channel()] on a connected client: one call into pika, whose outcome
    is the outcome of [channel()]. *)
Lemma RabbitMQClient_channel_run (self : RabbitMQClient)
    (c : BlockingConnection) (w : mq_world) :
  _rabbitmq self = Some c ->
  RabbitMQClient_channel self w =
  match connection_channel c (mq_amqp w) with
  | (Returns ch, s) =>
      (Returns ch,
       mkMq s (mq_calls w ++ [CallChannel c])
         (mq_log w ++ ["Creating channel"; "Created"]))
  | (Raises e, s) =>
      (Raises (PikaError e),
       mkMq s (mq_calls w ++ [CallChannel c]) (mq_log w ++ ["Creating channel"]))
  end.
Proof.
  intros Hc. run_mq. rewrite Hc. cbn.
  pika_cases; rewrite <- ?app_assoc; reflexivity.
Qed.

(** [publish] after [channel()]: the check of [is_open], then
    [basic_publish] and, only when that returned, [close]. *)
Lemma RabbitMQClient_publish_run (self : RabbitMQClient) (queue : string)
    (message ctype : option string) (mode : option DeliveryMode)
    (w : mq_world) :
  RabbitMQClient_publish self queue message ctype mode w =
  match RabbitMQClient_channel self w with
  | (Raises e, w1) => (Raises e, w1)
  | (Returns ch, w1) =>
      if is_open ch (mq_amqp w1) then
        let body := default "" message in
        let properties :=
          mkBasicProperties (default "application/octect-stream" ctype)
            (DeliveryMode_value (default Persistent mode)) in
        let sent :=
          (mq_calls w1 ++ [CallBasicPublish ch "" queue body properties])%list in
        match basic_publish ch "" queue body properties (mq_amqp w1) with
        | (Raises e, s2) => (Raises (PikaError e), mkMq s2 sent (mq_log w1))
        | (Returns _, s2) =>
            match channel_close ch s2 with
            | (Returns _, s3) =>
                (Returns tt, mkMq s3 (sent ++ [CallChannelClose ch]) (mq_log w1))
            | (Raises e, s3) =>
                (Raises (PikaError e),
                 mkMq s3 (sent ++ [CallChannelClose ch]) (mq_log w1))
            end
        end
      else (Raises (AMQPChannelError "Channel is closed"), w1)
  end.
Proof.
  unfold RabbitMQClient_publish, bind at 1.
  destruct (RabbitMQClient_channel self w) as [[ch|e] w1]; [| reflexivity].
  unfold bind, channel_is_open, pika, raise. cbn.
  destruct (is_open ch (mq_amqp w1)); cbn; [| reflexivity].
  destruct (basic_publish _ _ _ _ _ _) as [[[]|e] s2]; cbn; [| reflexivity].
  destruct (channel_close ch s2) as [[[]|e] s3]; reflexivity.
Qed.


(** X11.  A [publish] that returns has obtained one channel, published on
    it and closed that same channel: these three calls into pika and no
    other. *)
Lemma publish_closes_when_it_returns (self : RabbitMQClient) (queue : string)
    (message ctype : option string) (mode : option DeliveryMode)
    (w : mq_world) :
  mq_result (RabbitMQClient_publish self queue message ctype mode) w =
    Returns tt ->
  exists (c : BlockingConnection) (ch : BlockingChannel),
    _rabbitmq self = Some c /\
    mq_result (RabbitMQClient_channel self) w = Returns ch /\
    mq_calls_made (RabbitMQClient_publish self queue message ctype mode) w =
    [CallChannel c;
     CallBasicPublish ch "" queue (default "" message)
       (mkBasicProperties (default "application/octect-stream" ctype)
          (DeliveryMode_value (default Persistent mode)));
     CallChannelClose ch].
Proof.
  unfold mq_result, mq_calls_made. rewrite RabbitMQClient_publish_run.
  destruct (_rabbitmq self) as [c|] eqn:Hc.
  - rewrite (RabbitMQClient_channel_run self c w Hc).
    destruct (connection_channel c (mq_amqp w)) as [[ch|e] s1]; cbn;
      [| discriminate].
    destruct (is_open ch s1); cbn; [| discriminate].
    destruct (basic_publish _ _ _ _ _ _) as [[[]|e] s2]; cbn; [| discriminate].
    destruct (channel_close ch s2) as [[[]|e] s3]; cbn; [| discriminate].
    intros _. exists c, ch. split; [reflexivity |]. split; [reflexivity |].
    rewrite <- !app_assoc. apply drop_app_length.
  - unfold RabbitMQClient_channel, get_rabbitmq, bind, mq_debug, raise.
    rewrite Hc. cbn. discriminate.
Qed.

(** X13.  When [basic_publish] raises, [publish] raises the same exception
    at once: the AMQP state is the one [basic_publish] left, and [close] is
    not among the calls made. *)
Lemma publish_skips_close_when_basic_publish_raises (self : RabbitMQClient)
    (queue : string) (message ctype : option string)
    (mode : option DeliveryMode) (w : mq_world) (ch : BlockingChannel)
    (e : pika_error) (s2 : amqp) :
  mq_result (RabbitMQClient_channel self) w = Returns ch ->
  is_open ch (amqp_after (RabbitMQClient_channel self) w) = true ->
  basic_publish ch "" queue (default "" message)
    (mkBasicProperties (default "application/octect-stream" ctype)
       (DeliveryMode_value (default Persistent mode)))
    (amqp_after (RabbitMQClient_channel self) w) = (Raises e, s2) ->
  mq_result (RabbitMQClient_publish self queue message ctype mode) w =
    Raises (PikaError e) /\
  amqp_after (RabbitMQClient_publish self queue message ctype mode) w = s2 /\
  ~ In (CallChannelClose ch)
      (mq_calls_made (RabbitMQClient_publish self queue message ctype mode) w).
Proof.
  unfold mq_result, mq_calls_made, amqp_after.
  rewrite RabbitMQClient_publish_run.
  destruct (_rabbitmq self) as [c|] eqn:Hc.
  - rewrite (RabbitMQClient_channel_run self c w Hc).
    destruct (connection_channel c (mq_amqp w)) as [[ch'|e'] s1]; cbn;
      [| discriminate].
    intros [= ->] Hopen Hpub. rewrite Hopen, Hpub. cbn.
    split; [reflexivity |]. split; [reflexivity |].
    rewrite <- app_assoc, drop_app_length. cbn.
    intros [H | [H | []]]; discriminate.
  - unfold RabbitMQClient_channel, get_rabbitmq, bind, mq_debug, raise.
    rewrite Hc. cbn. discriminate.
Qed.

(** Whatever the broker does, a [publish] that names no content type and no
    delivery mode publishes, if at all, to the default exchange with the
    defaults of the signature. *)
Lemma publish_default_properties (self : RabbitMQClient) (queue : string)
    (message : option string) (w : mq_world) (ch : BlockingChannel)
    (exchange routing_key body : string) (properties : BasicProperties) :
  In (CallBasicPublish ch exchange routing_key body properties)
    (mq_calls_made (RabbitMQClient_publish self queue message None None) w) ->
  exchange = "" /\ routing_key = queue /\ body = default "" message /\
  content_type properties = "application/octect-stream" /\
  delivery_mode properties = DeliveryMode_value Persistent.
Proof.
  unfold mq_calls_made. rewrite RabbitMQClient_publish_run.
  destruct (_rabbitmq self) as [c|] eqn:Hc.
  - rewrite (RabbitMQClient_channel_run self c w Hc).
    destruct (connection_channel c (mq_amqp w)) as [[ch'|e'] s1]; cbn.
    + destruct (is_open ch' s1); cbn.
      * destruct (basic_publish _ _ _ _ _ _) as [[[]|e] s2]; cbn.
        -- destruct (channel_close ch' s2) as [[[]|e] s3]; cbn;
             rewrite <- !app_assoc, drop_app_length; cbn;
             intros [H | [H | [H | []]]]; inversion H; subst; auto.
        -- rewrite <- !app_assoc, drop_app_length; cbn.
           intros [H | [H | []]]; inversion H; subst; auto.
      * rewrite drop_app_length. cbn. intros [H | []]; discriminate.
    + rewrite drop_app_length. cbn. intros [H | []]; discriminate.
  - unfold RabbitMQClient_channel, get_rabbitmq, bind, mq_debug, raise.
    rewrite Hc. cbn. rewrite drop_all. intros [].
Qed.
(** ** Further properties of the wrapper *)

(** [connect] with a timeout that is not negative is one call into pika,
    whatever the client holds. *)
Lemma RabbitMQClient_connect_run (self : RabbitMQClient)
    (timeout : option (option seconds)) (w : mq_world) :
  match default (Some thirty) timeout with
  | Some t => negative t
  | None => false
  end = false ->
  RabbitMQClient_connect self timeout w =
  let parameters :=
    mkConnectionParameters (mq_host self) (mq_port self) (mq_virtual_host self)
      (mkPlainCredentials (mq_username self) (mq_password self))
      (default (Some thirty) timeout) in
  let creating := "Creating connection to '" +:+ mq_host self +:+ "' ..." in
  match new_connection parameters (mq_amqp w) with
  | (Returns c, s) =>
      (Returns
         (mkRabbitMQClient (mq_host self) (mq_port self) (mq_virtual_host self)
            (mq_scheme self) (mq_username self) (mq_password self) (Some c)),
       mkMq s (mq_calls w ++ [CallConnection parameters])
         (mq_log w ++ [creating; "Connected"]))
  | (Raises e, s) =>
      (Raises (PikaError e),
       mkMq s (mq_calls w ++ [CallConnection parameters])
         (mq_log w ++ [creating]))
  end.
Proof.
  intros Hvalid.
  unfold RabbitMQClient_connect, ConnectionParameters_new, bind, pika,
    mq_debug, ret, raise. cbn. rewrite Hvalid. cbn.
  destruct (new_connection _ _) as [[c|e] s]; cbn;
    rewrite <- ?app_assoc; reflexivity.
Qed.

(** [connect] with a negative timeout raises before it calls pika. *)
Lemma RabbitMQClient_connect_invalid (self : RabbitMQClient)
    (timeout : option (option seconds)) (w : mq_world) :
  match default (Some thirty) timeout with
  | Some t => negative t
  | None => false
  end = true ->
  RabbitMQClient_connect self timeout w =
  (Raises (ValueError "blocked_connection_timeout must be >= 0"),
   mkMq (mq_amqp w) (mq_calls w)
     (mq_log w ++ ["Creating connection to '" +:+ mq_host self +:+ "' ..."])).
Proof.
  intros Hinvalid.
  unfold RabbitMQClient_connect, ConnectionParameters_new, bind, pika,
    mq_debug, ret, raise. cbn. rewrite Hinvalid. reflexivity.
Qed.

(** X7.  Constructing a client opens exactly one connection, to the given
    host with port 5672, virtual host [/] and the credentials [guest],
    [guest] where the caller names none, and with a blocked-connection timeout
    of 30.  The client returned holds that connection; when pika cannot
    connect, the constructor raises pika's exception.  The scheme is stored
    and has no part in the connection. *)
Theorem init_opens_one_connection (hostname : string) (portno : option Z)
    (virtual_host scheme scheme' username password : option string)
    (w : mq_world) :
  mq_calls_made
    (RabbitMQClient_init hostname portno virtual_host scheme username password)
    w =
  [CallConnection
     (mkConnectionParameters hostname (default 5672 portno)
        (default "/" virtual_host)
        (mkPlainCredentials (default "guest" username)
           (default "guest" password))
        (Some thirty))] /\
  mq_result
    (RabbitMQClient_init hostname portno virtual_host scheme username password)
    w =
  match
    fst (new_connection
           (mkConnectionParameters hostname (default 5672 portno)
              (default "/" virtual_host)
              (mkPlainCredentials (default "guest" username)
                 (default "guest" password))
              (Some thirty)) (mq_amqp w))
  with
  | Returns c =>
      Returns
        (mkRabbitMQClient hostname (default 5672 portno)
           (default "/" virtual_host) (default "amqp" scheme)
           (default "guest" username) (default "guest" password) (Some c))
  | Raises e => Raises (PikaError e)
  end /\
  amqp_after
    (RabbitMQClient_init hostname portno virtual_host scheme username password)
    w =
  amqp_after
    (RabbitMQClient_init hostname portno virtual_host scheme' username password)
    w.
Proof.
  unfold mq_calls_made, mq_result, amqp_after, RabbitMQClient_init.
  rewrite !RabbitMQClient_connect_run by apply thirty_not_negative. cbn.
  destruct (new_connection _ _) as [[c|e] s]; cbn;
    rewrite drop_app_length; repeat split; reflexivity.
Qed.

(** X8.  [connect] on a client that already holds a connection opens a new
    one and does not close the old one: with a timeout that is not negative,
    its only call into pika is the new connection, with the timeout given, 30
    when none is given, and no timeout when [None] is given; on success the
    client holds the new connection.  With a negative timeout [connect]
    raises the [ValueError] of [ConnectionParameters] and calls pika not at
    all. *)
Theorem connect_does_not_close_previous (self : RabbitMQClient)
    (timeout : option (option seconds)) (w : mq_world) :
  (match timeout with
   | None | Some None => false
   | Some (Some given) => negative given
   end = false ->
   mq_calls_made (RabbitMQClient_connect self timeout) w =
   [CallConnection
      (mkConnectionParameters (mq_host self) (mq_port self)
         (mq_virtual_host self)
         (mkPlainCredentials (mq_username self) (mq_password self))
         match timeout with
         | None => Some thirty
         | Some given => given
         end)] /\
   forall self' : RabbitMQClient,
     mq_result (RabbitMQClient_connect self timeout) w = Returns self' ->
     exists (c : BlockingConnection) (s : amqp),
       new_connection
         (mkConnectionParameters (mq_host self) (mq_port self)
            (mq_virtual_host self)
            (mkPlainCredentials (mq_username self) (mq_password self))
            match timeout with
            | None => Some thirty
            | Some given => given
            end) (mq_amqp w) = (Returns c, s) /\
       _rabbitmq self' = Some c /\
       amqp_after (RabbitMQClient_connect self timeout) w = s) /\
  (match timeout with
   | None | Some None => false
   | Some (Some given) => negative given
   end = true ->
   mq_result (RabbitMQClient_connect self timeout) w =
     Raises (ValueError "blocked_connection_timeout must be >= 0") /\
   mq_calls_made (RabbitMQClient_connect self timeout) w = [] /\
   amqp_after (RabbitMQClient_connect self timeout) w = mq_amqp w).
Proof.
  assert (Htest :
    match default (Some thirty) timeout with
    | Some t => negative t
    | None => false
    end =
    match timeout with
    | None | Some None => false
    | Some (Some given) => negative given
    end).
  { destruct timeout as [[given|]|]; cbn; auto using thirty_not_negative. }
  split; intros Hcase; rewrite <- Htest in Hcase.
  - unfold mq_calls_made, mq_result, amqp_after.
    rewrite (RabbitMQClient_connect_run self timeout w Hcase). cbn zeta.
    replace (default (Some thirty) timeout)
      with (match timeout with None => Some thirty | Some given => given end)
      by (destruct timeout; reflexivity).
    destruct (new_connection _ _) as [[c|e] s] eqn:E; cbn;
      rewrite drop_app_length; (split; [reflexivity |]); intros self' H.
    + injection H as <-. exists c, s. auto.
    + discriminate.
  - unfold mq_calls_made, mq_result, amqp_after.
    rewrite (RabbitMQClient_connect_invalid self timeout w Hcase). cbn.
    rewrite drop_all. repeat split; reflexivity.
Qed.

(** [close] on a connected client is one call into pika. *)
Lemma RabbitMQClient_close_run (self : RabbitMQClient)
    (c : BlockingConnection) (w : mq_world) :
  _rabbitmq self = Some c ->
  RabbitMQClient_close self w =
  match connection_close c (mq_amqp w) with
  | (Returns _, s) =>
      (Returns
         (mkRabbitMQClient (mq_host self) (mq_port self) (mq_virtual_host self)
            (mq_scheme self) (mq_username self) (mq_password self) None),
       mkMq s (mq_calls w ++ [CallConnectionClose c])
         (mq_log w ++ ["Closing rabbitmq connection ..."; "Closed"]))
  | (Raises e, s) =>
      (Raises (PikaError e),
       mkMq s (mq_calls w ++ [CallConnectionClose c])
         (mq_log w ++ ["Closing rabbitmq connection ..."]))
  end.
Proof.
  intros Hc.
  unfold RabbitMQClient_close, get_rabbitmq, bind, pika, mq_debug, ret.
  rewrite Hc. cbn.
  destruct (connection_close c (mq_amqp w)) as [[[]|e] s]; cbn;
    rewrite <- ?app_assoc; reflexivity.
Qed.

(** Without a connection, [channel], [publish] and [close] raise
    [AttributeError] and make no call into pika. *)
Lemma no_connection_no_call (self : RabbitMQClient) (queue : string)
    (message ctype : option string) (mode : option DeliveryMode)
    (w : mq_world) :
  _rabbitmq self = None ->
  (mq_result (RabbitMQClient_channel self) w =
     Raises (AttributeError "_rabbitmq") /\
   mq_calls_made (RabbitMQClient_channel self) w = []) /\
  (mq_result (RabbitMQClient_publish self queue message ctype mode) w =
     Raises (AttributeError "_rabbitmq") /\
   mq_calls_made (RabbitMQClient_publish self queue message ctype mode) w = []) /\
  (mq_result (RabbitMQClient_close self) w =
     Raises (AttributeError "_rabbitmq") /\
   mq_calls_made (RabbitMQClient_close self) w = []).
Proof.
  intros Hc. run_mq. unfold RabbitMQClient_close, get_rabbitmq, bind, mq_debug,
    raise. rewrite Hc. cbn. rewrite !drop_all. repeat split; reflexivity.
Qed.

(** X9.  A [close] that returns has made one call into pika, the closing
    of the connection the client held.  On the client it leaves behind,
    [channel], [publish] and a second [close] raise [AttributeError] without
    calling pika. *)
Theorem closed_client_makes_no_call (self self' : RabbitMQClient)
    (queue : string) (message ctype : option string)
    (mode : option DeliveryMode) (w w' : mq_world) :
  mq_result (RabbitMQClient_close self) w = Returns self' ->
  (exists c : BlockingConnection,
     _rabbitmq self = Some c /\
     mq_calls_made (RabbitMQClient_close self) w = [CallConnectionClose c]) /\
  (mq_result (RabbitMQClient_channel self') w' =
     Raises (AttributeError "_rabbitmq") /\
   mq_calls_made (RabbitMQClient_channel self') w' = []) /\
  (mq_result (RabbitMQClient_publish self' queue message ctype mode) w' =
     Raises (AttributeError "_rabbitmq") /\
   mq_calls_made (RabbitMQClient_publish self' queue message ctype mode) w' = []) /\
  (mq_result (RabbitMQClient_close self') w' =
     Raises (AttributeError "_rabbitmq") /\
   mq_calls_made (RabbitMQClient_close self') w' = []).
Proof.
  intros Hclose.
  destruct (_rabbitmq self) as [c|] eqn:Hc.
  - unfold mq_result, mq_calls_made in Hclose |- *.
    rewrite (RabbitMQClient_close_run self c w Hc) in Hclose |- *.
    destruct (connection_close c (mq_amqp w)) as [[[]|e] s]; cbn in Hclose |- *;
      [| discriminate].
    injection Hclose as <-. split.
    + exists c. split; [reflexivity |]. apply drop_app_length.
    + apply no_connection_no_call. reflexivity.
  - destruct (no_connection_no_call self queue message ctype mode w Hc)
      as (_ & _ & Hraise & _).
    rewrite Hraise in Hclose. discriminate.
Qed.

(** X10.  [get] on an open channel makes one call into pika, [basic_get]
    on that channel and queue, and returns what it returns, the triple of
    [None] of an empty queue included; an exception of pika is raised as it
    is.  [get] does not use the connection of the client. *)
Theorem get_on_open_channel (self : RabbitMQClient) (channel : BlockingChannel)
    (queue : string) (w : mq_world) :
  is_open channel (mq_amqp w) = true ->
  mq_calls_made (RabbitMQClient_get self channel queue) w =
    [CallBasicGet channel queue] /\
  mq_result (RabbitMQClient_get self channel queue) w =
    match fst (basic_get channel queue (mq_amqp w)) with
    | Returns message => Returns message
    | Raises e => Raises (PikaError e)
    end /\
  amqp_after (RabbitMQClient_get self channel queue) w =
    snd (basic_get channel queue (mq_amqp w)).
Proof.
  intros Hopen. run_mq. rewrite Hopen. cbn.
  destruct (basic_get channel queue (mq_amqp w)) as [[r|e] s]; cbn;
    rewrite drop_app_length; repeat split; reflexivity.
Qed.

(** X12.  The calls [publish] makes into pika are always an initial part
    of: [channel()] on the connection of the client, [basic_publish] on the
    channel obtained, to the default exchange, with the queue name as routing
    key, the message as body and the content type and delivery mode given,
    and [close] of that channel. *)
Theorem publish_calls_in_order (self : RabbitMQClient) (queue : string)
    (message ctype : option string) (mode : option DeliveryMode)
    (w : mq_world) :
  match _rabbitmq self with
  | None =>
      mq_calls_made (RabbitMQClient_publish self queue message ctype mode) w = []
  | Some c =>
      match fst (connection_channel c (mq_amqp w)) with
      | Raises _ =>
          mq_calls_made (RabbitMQClient_publish self queue message ctype mode) w =
          [CallChannel c]
      | Returns ch =>
          mq_calls_made (RabbitMQClient_publish self queue message ctype mode) w
          `prefix_of`
          [CallChannel c;
           CallBasicPublish ch "" queue
             match message with Some m => m | None => "" end
             (mkBasicProperties
                match ctype with
                | Some t => t
                | None => "application/octect-stream"
                end
                match mode with
                | Some Transient => 1
                | Some Persistent | None => 2
                end);
           CallChannelClose ch] /\
          [CallChannel c] `prefix_of`
          mq_calls_made (RabbitMQClient_publish self queue message ctype mode) w
      end
  end.
Proof.
  destruct (_rabbitmq self) as [c|] eqn:Hc.
  - unfold mq_calls_made. rewrite RabbitMQClient_publish_run.
    rewrite (RabbitMQClient_channel_run self c w Hc).
    replace (DeliveryMode_value (default Persistent mode))
      with (match mode with Some Transient => 1 | _ => 2 end)
      by (destruct mode as [[]|]; reflexivity).
    replace (default "" message)
      with (match message with Some m => m | None => "" end)
      by (destruct message; reflexivity).
    replace (default "application/octect-stream" ctype)
      with (match ctype with Some t => t | None => "application/octect-stream" end)
      by (destruct ctype; reflexivity).
    destruct (connection_channel c (mq_amqp w)) as [[ch|e] s1]; cbn.
    + destruct (is_open ch s1); cbn.
      * destruct (basic_publish _ _ _ _ _ _) as [[[]|e] s2]; cbn.
        -- destruct (channel_close ch s2) as [[[]|e] s3]; cbn;
             rewrite <- !app_assoc, drop_app_length; cbn;
             (split; [reflexivity | eexists; reflexivity]).
        -- rewrite <- !app_assoc, drop_app_length; cbn.
           split; [eexists [_]; reflexivity | eexists; reflexivity].
      * rewrite drop_app_length.
        split; [eexists [_; _]; reflexivity | reflexivity].
    + apply drop_app_length.
  - apply (no_connection_no_call self queue message ctype mode w Hc).
Qed.

End MqProperties.

(** ** The wrapper against the example broker *)

Section AgainstBroker.
Import Broker.


(** C5.  A queue name of 256 characters makes [basic_publish] raise while
    the channel that [publish] has just opened is open; [publish] raises
    that exception without calling [close], and the channel stays open. *)
Theorem publish_leaves_channel_open_on_failure :
  mq_result (RabbitMQClient_publish client long_name (Some "hi") None None)
    (idle true) = Raises (PikaError "ShortStringTooLong") /\
  mq_calls_made (RabbitMQClient_publish client long_name (Some "hi") None None)
    (idle true) =
  [CallChannel tt;
   CallBasicPublish 0%nat "" long_name "hi"
     (mkBasicProperties "application/octect-stream" 2)] /\
  is_open 0%nat
    (amqp_after (RabbitMQClient_publish client long_name (Some "hi") None None)
       (idle true)) = true /\
  is_open 0%nat (mq_amqp (idle true)) = false.
Proof. vm_compute. repeat split; reflexivity. Qed.

(** C8.  [publish] called with a queue name only publishes with delivery
    mode 2, the value of [DeliveryMode.Persistent], and with the content
    type [application/octect-stream], which is not
    [application/octet-stream]. *)
Theorem default_content_type_is_misspelt :
  mq_calls_made (RabbitMQClient_publish client "jobs" None None None)
    (idle true) =
  [CallChannel tt;
   CallBasicPublish 0%nat "" "jobs" ""
     (mkBasicProperties "application/octect-stream"
        (DeliveryMode_value Persistent));
   CallChannelClose 0%nat] /\
  "application/octect-stream" <> "application/octet-stream" /\
  DeliveryMode_value Persistent = 2.
Proof. split; [vm_compute; reflexivity |]. split; [discriminate | reflexivity]. Qed.

Lemma closed_client_makes_no_call_witness :
  (exists c : BlockingConnection,
     _rabbitmq client = Some c /\
     mq_calls_made (RabbitMQClient_close client) (idle true) =
       [CallConnectionClose c]) /\
  (mq_result
     (RabbitMQClient_channel
        (mkRabbitMQClient "localhost" 5672 "/" "amqp" "guest" "guest" None))
     (idle true) = Raises (AttributeError "_rabbitmq") /\
   mq_calls_made
     (RabbitMQClient_channel
        (mkRabbitMQClient "localhost" 5672 "/" "amqp" "guest" "guest" None))
     (idle true) = []) /\
  (mq_result
     (RabbitMQClient_publish
        (mkRabbitMQClient "localhost" 5672 "/" "amqp" "guest" "guest" None)
        "jobs" None None None) (idle true) =
     Raises (AttributeError "_rabbitmq") /\
   mq_calls_made
     (RabbitMQClient_publish
        (mkRabbitMQClient "localhost" 5672 "/" "amqp" "guest" "guest" None)
        "jobs" None None None) (idle true) = []) /\
  (mq_result
     (RabbitMQClient_close
        (mkRabbitMQClient "localhost" 5672 "/" "amqp" "guest" "guest" None))
     (idle true) = Raises (AttributeError "_rabbitmq") /\
   mq_calls_made
     (RabbitMQClient_close
        (mkRabbitMQClient "localhost" 5672 "/" "amqp" "guest" "guest" None))
     (idle true) = []).
Proof.
  apply (closed_client_makes_no_call (PT := types) (PK := pika) client
           (mkRabbitMQClient "localhost" 5672 "/" "amqp" "guest" "guest" None)
           "jobs" None None None (idle true) (idle true)).
  reflexivity.
Defined.

Lemma get_on_open_channel_witness :
  mq_calls_made (RabbitMQClient_get client 0%nat "jobs") serving =
    [CallBasicGet 0%nat "jobs"] /\
  mq_result (RabbitMQClient_get client 0%nat "jobs") serving =
    match fst (basic_get 0%nat "jobs" (mq_amqp serving)) with
    | Returns message => Returns message
    | Raises e => Raises (PikaError e)
    end /\
  amqp_after (RabbitMQClient_get client 0%nat "jobs") serving =
    snd (basic_get 0%nat "jobs" (mq_amqp serving)).
Proof.
  apply (get_on_open_channel (PT := types) (PK := pika) client 0%nat "jobs"
           serving).
  reflexivity.
Defined.

Lemma publish_closes_when_it_returns_witness :
  exists (c : BlockingConnection) (ch : BlockingChannel),
    _rabbitmq client = Some c /\
    mq_result (RabbitMQClient_channel client) (idle true) = Returns ch /\
    mq_calls_made
      (RabbitMQClient_publish client "jobs" (Some "hi") (Some "text/plain")
         (Some Transient)) (idle true) =
    [CallChannel c;
     CallBasicPublish ch "" "jobs" "hi" (mkBasicProperties "text/plain" 1);
     CallChannelClose ch].
Proof.
  apply (publish_closes_when_it_returns (PT := types) (PK := pika) client
           "jobs" (Some "hi") (Some "text/plain") (Some Transient) (idle true)).
  reflexivity.
Defined.

Lemma publish_skips_close_when_basic_publish_raises_witness :
  mq_result (RabbitMQClient_publish client long_name (Some "hi") None None)
    (idle true) = Raises (PikaError "ShortStringTooLong") /\
  amqp_after (RabbitMQClient_publish client long_name (Some "hi") None None)
    (idle true) = mkState 1 {[0%nat]} ∅ true /\
  ~ In (CallChannelClose 0%nat)
      (mq_calls_made
         (RabbitMQClient_publish client long_name (Some "hi") None None)
         (idle true)).
Proof.
  apply (publish_skips_close_when_basic_publish_raises (PT := types)
           (PK := pika) client long_name (Some "hi") None None (idle true)
           0%nat "ShortStringTooLong" (mkState 1 {[0%nat]} ∅ true));
    reflexivity.
Defined.

(** A negative timeout is refused before pika is asked for a connection. *)
Example negative_timeout_is_refused :
  mq_result (RabbitMQClient_connect client (Some (Some (-1)))) serving =
    Raises (ValueError "blocked_connection_timeout must be >= 0") /\
  mq_calls_made (RabbitMQClient_connect client (Some (Some (-1)))) serving = [].
Proof. split; reflexivity. Qed.

End AgainstBroker.

(** ** The serialization mixin *)

(** Induction on Python values, through lists, dict items and enumeration
    values; the values [_asdict] passes through need no premise. *)
Lemma pyval_nested_ind (P : pyval -> Prop) :
  (forall obj, passes_through obj = true -> P obj) ->
  (forall elems, Forall P elems -> P (PList elems)) ->
  (forall items, Forall (fun kv => P (fst kv) /\ P (snd kv)) items -> P (PDict items)) ->
  (forall cls member value, P value -> P (PEnum cls member value)) ->
  (forall u, P (PUUID u)) ->
  (forall d, P (PDecimal d)) ->
  forall obj, P obj.
Proof.
  intros Hother Hlist Hdict Henum Huuid Hdec.
  fix IH 1. intros obj.
  destruct obj as [| b | n | bits | s | b | elems | elems | items
                   | cls member value | u | d | id accepted];
    try (apply Hother; reflexivity).
  - apply Hlist. induction elems as [|o elems IHelems]; constructor.
    + apply IH.
    + exact IHelems.
  - apply Hdict. induction items as [|[k v] items IHitems]; constructor.
    + split; apply IH.
    + exact IHitems.
  - apply Henum, IH.
  - apply Huuid.
  - apply Hdec.
Qed.

(** *** The strings of identifiers and decimals *)

Lemma hex_digits_length (width : nat) (n : N) (acc : string) :
  String.length (PyStr.hex_digits width n acc) = (width + String.length acc)%nat.
Proof.
  revert n acc. induction width as [|w IH]; intros n acc; cbn; [reflexivity |].
  rewrite IH. cbn. lia.
Qed.

Lemma substring_length (i k : nat) (s : string) :
  (i + k <= String.length s)%nat -> String.length (substring i k s) = k.
Proof.
  revert i k. induction s as [|c s IH]; intros i k; cbn.
  - intros H. destruct i, k; cbn; lia.
  - destruct i as [|i]; [destruct k as [|k] |]; cbn; intros H.
    + reflexivity.
    + f_equal. apply (IH 0%nat). cbn. lia.
    + apply IH. lia.
Qed.

Lemma append_length (a b : string) :
  String.length (a +:+ b) = (String.length a + String.length b)%nat.
Proof.
  induction a as [|c a IH]; [reflexivity |].
  change (S (String.length (a +:+ b)) = S (String.length a + String.length b)).
  now f_equal.
Qed.

(** The canonical form of a UUID has 36 characters: 32 hexadecimal digits
    in groups of 8, 4, 4, 4 and 12. *)
Lemma UUID_str_length (u : UUID) : String.length (UUID_str u) = 36%nat.
Proof.
  unfold UUID_str, PyStr.slice, PyStr.slice_from.
  pose proof (hex_digits_length 32 (uuid_int u) "") as L.
  unfold PyStr.format_032x. cbn in L.
  rewrite !append_length, !substring_length; rewrite ?L; cbn; lia.
Qed.

Example UUID_str_example :
  UUID_str (mkUUID 0x12345678123456781234567812345678) =
  "12345678-1234-5678-1234-567812345678".
Proof. reflexivity. Qed.

Example Decimal_str_examples :
  map Decimal_str
    [mkDecimal false "15" (Finite (-1)); mkDecimal true "1" (Finite (-7));
     mkDecimal false "123" (Finite 2); mkDecimal false "0" (Finite 0);
     mkDecimal false "1" (Finite (-6)); mkDecimal false "12345" (Finite (-2));
     mkDecimal false "100" (Finite 0); mkDecimal false "0" (Finite (-2));
     mkDecimal true "" Infinity; mkDecimal false "" QuietNaN] =
  ["1.5"; "-1E-7"; "1.23E+4"; "0"; "0.000001"; "123.45"; "100"; "0.00";
   "-Infinity"; "NaN"].
Proof. reflexivity. Qed.

(** *** Decimals render without loss *)

Lemma digit_is_no_mark (c : ascii) :
  is_digit c = true ->
  Ascii.eqb c "-" = false /\ Ascii.eqb c "E" = false /\ Ascii.eqb c "." = false.
Proof.
  destruct c as [[] [] [] [] [] [] [] []]; cbn; intros H;
    first [discriminate H | repeat split; reflexivity].
Qed.

Lemma str_partition_append (c : ascii) (a b : string) :
  str_partition c a = (a, None) ->
  str_partition c (a +:+ b) =
  (a +:+ fst (str_partition c b), snd (str_partition c b)).
Proof.
  induction a as [|x a IH]; intros Ha.
  - rewrite !append_empty_l. now destruct (str_partition c b).
  - rewrite append_cons. cbn in Ha |- *.
    destruct (Ascii.eqb x c); [discriminate |].
    destruct (str_partition c a) as [before after] eqn:Epa.
    injection Ha as -> ->. rewrite IH by reflexivity. cbn.
    now rewrite append_cons.
Qed.

Lemma str_partition_digits (c : ascii) (a : string) :
  is_digit c = false -> all_digits a = true -> str_partition c a = (a, None).
Proof.
  intros Hc. induction a as [|x a IH]; cbn; [reflexivity |].
  intros H. apply andb_true_iff in H as [Hx Ha].
  destruct (Ascii.eqb_spec x c) as [-> | _]; [congruence |].
  now rewrite IH.
Qed.

Lemma str_partition_other (c x : ascii) (s : string) :
  Ascii.eqb x c = false ->
  str_partition c (String x s) =
  (String x (fst (str_partition c s)), snd (str_partition c s)).
Proof. intros H. cbn. rewrite H. now destruct (str_partition c s). Qed.

Lemma str_partition_at (c : ascii) (b : string) :
  str_partition c (String c b) = ("", Some b).
Proof. cbn. now rewrite Ascii.eqb_refl. Qed.

(** The parts of a string built from a sign, digits, a fraction and an
    exponent are those it was built from. *)
Lemma decimal_parts_built (sign : bool) (ip fp : string) (ex : option string) :
  all_digits ip = true -> ip <> "" -> all_digits fp = true ->
  decimal_parts
    ((if sign then "-" else "") +:+ ip +:+
     (match fp with EmptyString => "" | _ => "." +:+ fp end) +:+
     (match ex with Some x => "E" +:+ x | None => "" end)) =
  (sign, ip, fp, ex).
Proof.
  intros Hip Hne Hfp.
  assert (Hunsigned :
    (let '(mantissa, exponent) :=
       str_partition "E"
         (ip +:+ (match fp with EmptyString => "" | _ => "." +:+ fp end) +:+
          (match ex with Some x => "E" +:+ x | None => "" end)) in
     let '(intpart, fracpart) := str_partition "." mantissa in
     (intpart, default "" fracpart, exponent)) = (ip, fp, ex)).
  { assert (HE :
      str_partition "E"
        (ip +:+ (match fp with EmptyString => "" | _ => "." +:+ fp end) +:+
         (match ex with Some x => "E" +:+ x | None => "" end)) =
      (ip +:+ (match fp with EmptyString => "" | _ => "." +:+ fp end), ex)).
    { rewrite (str_partition_append "E" ip) by (now apply str_partition_digits).
      assert (Hfrac :
        str_partition "E" (match fp with EmptyString => "" | _ => "." +:+ fp end) =
        (match fp with EmptyString => "" | _ => "." +:+ fp end, None)).
      { destruct fp as [|f fp]; [reflexivity |].
        change ("." +:+ String f fp) with (String "." (String f fp)).
        rewrite str_partition_other by reflexivity.
        now rewrite (str_partition_digits "E" (String f fp)). }
      rewrite (str_partition_append "E" _ _ Hfrac).
      assert (Hex :
        str_partition "E" (match ex with Some x => "E" +:+ x | None => "" end) =
        ("", ex)).
      { destruct ex as [x|]; [apply str_partition_at | reflexivity]. }
      rewrite Hex. cbn [fst snd]. now rewrite append_empty_r. }
    rewrite HE.
    rewrite (str_partition_append "." ip) by (now apply str_partition_digits).
    destruct fp as [|f fp].
    - cbn. now rewrite append_empty_r.
    - change ("." +:+ String f fp) with (String "." (String f fp)).
      rewrite str_partition_at. cbn. now rewrite append_empty_r. }
  unfold decimal_parts.
  destruct sign.
  - change ("-" +:+ ?x) with (String "-" x).
    rewrite append_cons, append_empty_l. cbv iota.
    change (Ascii.eqb "-" "-") with true. cbv iota.
    destruct (str_partition "E" _) as [mantissa exponent].
    destruct (str_partition "." mantissa) as [intpart fracpart].
    now injection Hunsigned as -> -> ->.
  - rewrite append_empty_l.
    destruct ip as [|c ip]; [congruence |].
    rewrite append_cons. cbv iota.
    cbn in Hip. apply andb_true_iff in Hip as [Hc _].
    destruct (digit_is_no_mark c Hc) as (-> & _ & _).
    rewrite <- append_cons.
    destruct (str_partition "E" _) as [mantissa exponent].
    destruct (str_partition "." mantissa) as [intpart fracpart].
    now injection Hunsigned as -> -> ->.
Qed.

Lemma all_digits_append (a b : string) :
  all_digits (a +:+ b) = all_digits a && all_digits b.
Proof.
  induction a as [|c a IH]; [reflexivity |].
  rewrite append_cons. cbn. now rewrite IH, andb_assoc.
Qed.

Lemma all_digits_substring (i k : nat) (s : string) :
  all_digits s = true -> all_digits (substring i k s) = true.
Proof.
  revert i k. induction s as [|c s IH]; intros i k H.
  - now destruct i, k.
  - cbn in H. apply andb_true_iff in H as [Hc Hs].
    destruct i as [|i]; [destruct k as [|k] |]; cbn; auto.
    now rewrite Hc, IH.
Qed.

Lemma all_digits_zeros (n : nat) : all_digits (PyStr.repeat "0" n) = true.
Proof. induction n as [|n IH]; [reflexivity | exact IH]. Qed.

Lemma zeros_length (n : nat) : String.length (PyStr.repeat "0" n) = n.
Proof. induction n as [|n IH]; cbn; [reflexivity | now f_equal]. Qed.

Lemma substring_whole (s : string) : substring 0 (String.length s) s = s.
Proof. induction s as [|c s IH]; cbn; [reflexivity | now f_equal]. Qed.

(** [s[:k] + s[k:] == s] *)
Lemma substring_split (k : nat) (s : string) :
  (k <= String.length s)%nat ->
  substring 0 k s +:+ substring k (String.length s - k) s = s.
Proof.
  revert k. induction s as [|c s IH]; intros k Hk.
  - now destruct k.
  - destruct k as [|k].
    + rewrite Nat.sub_0_r. change (substring 0 0 (String c s)) with "".
      rewrite append_empty_l. apply substring_whole.
    + cbn in Hk |- *. rewrite append_cons. f_equal. apply IH. lia.
Qed.

Lemma nonempty_length (s : string) : s <> "" <-> (0 < String.length s)%nat.
Proof. destruct s; cbn; split; intros; try congruence; lia. Qed.

Lemma lstrip_zeros_zeros (n : nat) (s : string) :
  lstrip_zeros (PyStr.repeat "0" n +:+ s) = lstrip_zeros s.
Proof.
  induction n as [|n IH]; [reflexivity |].
  cbn [PyStr.repeat]. rewrite append_cons. cbn. exact IH.
Qed.

Lemma strip_zeros_canonical (s : string) :
  canonical_digits s = true -> strip_zeros s = s.
Proof.
  destruct s as [|c rest]; [discriminate |].
  unfold canonical_digits, strip_zeros. intros H.
  apply andb_true_iff in H as [_ H]. cbn [lstrip_zeros].
  destruct (Ascii.eqb_spec c "0") as [-> | Hc]; [| reflexivity].
  cbn in H. destruct rest; [reflexivity | discriminate].
Qed.

Lemma strip_zeros_padded (n : nat) (s : string) :
  canonical_digits s = true ->
  strip_zeros ("0" +:+ PyStr.repeat "0" n +:+ s) = s.
Proof.
  intros H. rewrite <- (strip_zeros_canonical s H) at 2.
  unfold strip_zeros. change ("0" +:+ ?x) with (String "0" x).
  cbn [lstrip_zeros]. change (Ascii.eqb "0" "0") with true. cbv iota.
  now rewrite lstrip_zeros_zeros.
Qed.

Lemma canonical_all_digits (s : string) :
  canonical_digits s = true -> all_digits s = true /\ s <> "".
Proof.
  destruct s as [|c rest]; [discriminate |].
  unfold canonical_digits. intros H. apply andb_true_iff in H as [H _].
  split; [exact H | discriminate].
Qed.

Lemma format_plus_d_inj (n m : Z) :
  PyStr.format_plus_d n = PyStr.format_plus_d m -> n = m.
Proof.
  assert (Hneg : forall (p : positive) (s : string),
            pretty (Z.neg p) <> String "+" s).
  { intros p s. unfold pretty, pretty_Z.
    change ("-" +:+ ?x) with (String "-" x). discriminate. }
  unfold PyStr.format_plus_d.
  destruct (Z.leb_spec 0 n) as [Hn | Hn], (Z.leb_spec 0 m) as [Hm | Hm].
  - change ("+" +:+ ?x) with (String "+" x). intros [= H].
    now apply pretty_Z_inj.
  - change ("+" +:+ ?x) with (String "+" x). intros H.
    destruct m as [|p|p]; try lia. symmetry in H. now apply Hneg in H.
  - change ("+" +:+ ?x) with (String "+" x). intros H.
    destruct n as [|p|p]; try lia. now apply Hneg in H.
  - apply pretty_Z_inj.
Qed.

Lemma dotted_nonempty (fp : string) :
  fp <> "" -> match fp with EmptyString => "" | _ => "." +:+ fp end = "." +:+ fp.
Proof. destruct fp; [congruence | reflexivity]. Qed.

(** The string of a finite decimal: its sign, digits, a fraction when there
    are digits after the point, and an exponent in scientific notation. *)
Lemma Decimal_str_built (d : Decimal) (e : Z) :
  dec_exp_ d = Finite e -> canonical_digits (dec_int d) = true ->
  exists (ip fp : string) (ex : option string),
    Decimal_str d =
      (if dec_sign d then "-" else "") +:+ ip +:+
      (match fp with EmptyString => "" | _ => "." +:+ fp end) +:+
      (match ex with Some x => "E" +:+ x | None => "" end) /\
    all_digits ip = true /\ ip <> "" /\ all_digits fp = true /\
    match ex with
    | None =>
        e = - Z.of_nat (String.length fp) /\
        dec_int d = strip_zeros (ip +:+ fp)
    | Some x =>
        x = PyStr.format_plus_d (e + Z.of_nat (String.length (ip +:+ fp)) - 1) /\
        dec_int d = ip +:+ fp
    end.
Proof.
  destruct d as [sign D ex0]. cbn [dec_exp_ dec_int dec_sign].
  intros -> Hcanon.
  destruct (canonical_all_digits D Hcanon) as [Hdigits Hne].
  apply nonempty_length in Hne.
  unfold Decimal_str. cbn [dec_exp_ dec_int dec_sign]. cbv zeta.
  set (L := Z.of_nat (String.length D)).
  assert (HL : 1 <= L) by (unfold L; lia).
  destruct ((e <=? 0) && (-6 <? e + L)) eqn:Hplain.
  - apply andb_true_iff in Hplain as [He Hld].
    apply Z.leb_le in He. apply Z.ltb_lt in Hld.
    rewrite Z.eqb_refl.
    destruct (Z.leb_spec (e + L) 0) as [Hzero | Hpos].
    + exists "0", (PyStr.repeat "0" (Z.to_nat (- (e + L))) +:+ D), None.
      assert (Hfp : PyStr.repeat "0" (Z.to_nat (- (e + L))) +:+ D <> "").
      { apply nonempty_length. rewrite append_length. lia. }
      rewrite (dotted_nonempty _ Hfp).
      split; [reflexivity |]. split; [reflexivity |].
      split; [discriminate |].
      split; [now rewrite all_digits_append, all_digits_zeros |].
      split; [| symmetry; now apply strip_zeros_padded].
      rewrite append_length, zeros_length. unfold L in *. lia.
    + destruct (Z.leb_spec L (e + L)) as [Hwhole | Hsplit].
      * assert (e = 0) by lia. subst e.
        exists D, "", None.
        replace (Z.to_nat (0 + L - L)) with 0%nat by lia.
        cbn [PyStr.repeat]. rewrite !append_empty_r.
        split; [reflexivity |]. split; [exact Hdigits |].
        split; [now apply nonempty_length |]. split; [reflexivity |].
        split; [reflexivity |]. symmetry. now apply strip_zeros_canonical.
      * exists (PyStr.slice 0 (Z.to_nat (e + L)) D),
               (PyStr.slice_from (Z.to_nat (e + L)) D), None.
        unfold PyStr.slice, PyStr.slice_from. rewrite Nat.sub_0_r.
        assert (Hk : (Z.to_nat (e + L) < String.length D)%nat)
          by (unfold L in *; lia).
        assert (Hfp : substring (Z.to_nat (e + L))
                        (String.length D - Z.to_nat (e + L)) D <> "").
        { apply nonempty_length. rewrite substring_length; lia. }
        rewrite (dotted_nonempty _ Hfp).
        split; [reflexivity |].
        split; [now apply all_digits_substring |].
        split; [apply nonempty_length; rewrite substring_length; lia |].
        split; [now apply all_digits_substring |].
        split.
        -- rewrite substring_length by lia. unfold L in *. lia.
        -- rewrite substring_split by lia. symmetry.
           now apply strip_zeros_canonical.
  - assert (Hsci : 0 < e \/ e + L <= -6).
    { apply andb_false_iff in Hplain as [H | H];
        [apply Z.leb_gt in H | apply Z.ltb_ge in H]; lia. }
    destruct (Z.eqb_spec (e + L) 1) as [Hone | _]; [lia |].
    change (1 <=? 0) with false. cbv iota.
    destruct (Z.leb_spec L 1) as [Hsingle | Hmany].
    + exists D, "", (Some (PyStr.format_plus_d (e + L - 1))).
      replace (Z.to_nat (1 - L)) with 0%nat by lia.
      cbn [PyStr.repeat]. rewrite !append_empty_r, !append_empty_l.
      split; [reflexivity |]. split; [exact Hdigits |].
      split; [now apply nonempty_length |]. split; [reflexivity |].
      split; reflexivity.
    + exists (PyStr.slice 0 (Z.to_nat 1) D), (PyStr.slice_from (Z.to_nat 1) D),
             (Some (PyStr.format_plus_d (e + L - 1))).
      unfold PyStr.slice, PyStr.slice_from. rewrite Nat.sub_0_r.
      change (Z.to_nat 1) with 1%nat.
      assert (Hk : (1 < String.length D)%nat) by (unfold L in *; lia).
      assert (Hfp : substring 1 (String.length D - 1) D <> "").
      { apply nonempty_length. rewrite substring_length; lia. }
      rewrite (dotted_nonempty _ Hfp).
      split; [reflexivity |].
      split; [now apply all_digits_substring |].
      split; [apply nonempty_length; rewrite substring_length; lia |].
      split; [now apply all_digits_substring |].
      rewrite substring_split by lia. split; reflexivity.
Qed.

(** Digits, exponent and sign can be read off the string. *)
Lemma Decimal_str_inj (d1 d2 : Decimal) (e1 e2 : Z) :
  dec_exp_ d1 = Finite e1 -> dec_exp_ d2 = Finite e2 ->
  canonical_digits (dec_int d1) = true ->
  canonical_digits (dec_int d2) = true ->
  Decimal_str d1 = Decimal_str d2 -> d1 = d2.
Proof.
  intros He1 He2 Hc1 Hc2 Hstr.
  destruct (Decimal_str_built d1 e1 He1 Hc1)
    as (ip1 & fp1 & ex1 & Hs1 & Hip1 & Hne1 & Hfp1 & Hrel1).
  destruct (Decimal_str_built d2 e2 He2 Hc2)
    as (ip2 & fp2 & ex2 & Hs2 & Hip2 & Hne2 & Hfp2 & Hrel2).
  apply (f_equal decimal_parts) in Hstr.
  rewrite Hs1, Hs2 in Hstr.
  rewrite !decimal_parts_built in Hstr by assumption.
  injection Hstr as Hsign <- <- <-.
  assert (Hparts : dec_int d1 = dec_int d2 /\ e1 = e2).
  { destruct ex1 as [x|].
    - destruct Hrel1 as [Hx1 HD1], Hrel2 as [Hx2 HD2].
      split; [congruence |].
      rewrite Hx1 in Hx2. apply format_plus_d_inj in Hx2. lia.
    - destruct Hrel1 as [Hx1 HD1], Hrel2 as [Hx2 HD2].
      split; congruence. }
  destruct Hparts as [HD <-].
  destruct d1, d2. cbn in *. congruence.
Qed.

Section ModelProperties.
Context {KE : PyKeys} {DJ : DataClassJson}.

(** A list comprehension returns the results of its elements, in order,
    exactly when every element returns. *)
Lemma list_comprehension_returns (f : pyval -> outcome py_exn pyval)
    (todo acc out : list pyval) :
  list_comprehension f todo acc = Returns out <->
  exists results,
    Forall2 (fun o o' => f o = Returns o') todo results /\
    out = (acc ++ results)%list.
Proof.
  revert acc. induction todo as [|o todo IH]; intros acc; cbn.
  - split.
    + intros [= <-]. exists []. split; [constructor | now rewrite app_nil_r].
    + intros (results & Hall & ->). inversion Hall. now rewrite app_nil_r.
  - destruct (f o) as [o'|e] eqn:Ho.
    + rewrite IH. split.
      * intros (results & Hall & ->). exists (o' :: results).
        split; [now constructor | now rewrite <- app_assoc].
      * intros (results & Hall & ->). inversion Hall as [|? o'' ? rest Ho' Hrest]; subst.
        rewrite Ho in Ho'. injection Ho' as <-.
        exists rest. split; [exact Hrest | now rewrite <- app_assoc].
    + split; [discriminate |].
      intros (results & Hall & _). inversion Hall as [|? o'' ? rest Ho' Hrest]; subst.
      rewrite Ho in Ho'. discriminate.
Qed.

(** A dict comprehension returns the dict of its rendered items, inserted
    in order, exactly when every key and value returns and every rendered key
    is hashable. *)
Lemma dict_comprehension_returns (fk fv : pyval -> outcome py_exn pyval)
    (todo acc out : list (pyval * pyval)) :
  dict_comprehension fk fv todo acc = Returns out <->
  exists results,
    Forall2 (fun kv kv' => fk (fst kv) = Returns (fst kv') /\
                           fv (snd kv) = Returns (snd kv')) todo results /\
    Forall (fun kv' => hashable (fst kv') = true) results /\
    out = fold_left (fun acc kv => dict_setitem acc (fst kv) (snd kv)) results acc.
Proof.
  revert acc. induction todo as [|[k v] todo IH]; intros acc; cbn.
  - split.
    + intros [= <-]. exists []. repeat split; constructor.
    + intros (results & Hall & _ & ->). inversion Hall. reflexivity.
  - destruct (fk k) as [k'|e] eqn:Hk; [destruct (fv v) as [v'|e] eqn:Hv;
      [destruct (hashable k') eqn:Hh |] |].
    + rewrite IH. split.
      * intros (results & Hall & Hhash & ->). exists ((k', v') :: results).
        repeat split; [constructor; auto | constructor; auto].
      * intros (results & Hall & Hhash & ->).
        inversion Hall as [|? [k'' v''] ? rest [Hk' Hv'] Hrest]; subst.
        cbn in Hk', Hv'. rewrite Hk in Hk'. rewrite Hv in Hv'.
        injection Hk' as <-. injection Hv' as <-.
        inversion Hhash; subst. exists rest. repeat split; assumption.
    + split; [discriminate |].
      intros (results & Hall & Hhash & _).
      inversion Hall as [|? [k'' v''] ? rest [Hk' Hv'] Hrest]; subst.
      cbn in Hk'. rewrite Hk in Hk'. injection Hk' as <-.
      inversion Hhash as [|? ? Hh' ?]; subst. cbn in Hh'. congruence.
    + split; [discriminate |].
      intros (results & Hall & _).
      inversion Hall as [|? [k'' v''] ? rest [Hk' Hv'] Hrest]; subst.
      cbn in Hv'. rewrite Hv in Hv'. discriminate.
    + split; [discriminate |].
      intros (results & Hall & _).
      inversion Hall as [|? [k'' v''] ? rest [Hk' Hv'] Hrest]; subst.
      cbn in Hk'. rewrite Hk in Hk'. discriminate.
Qed.

(** A comprehension raises what one of its elements raised, or the
    [TypeError] of an unhashable key. *)
Lemma list_comprehension_raises (f : pyval -> outcome py_exn pyval)
    (todo acc : list pyval) (e : py_exn) :
  list_comprehension f todo acc = Raises e ->
  Exists (fun o => f o = Raises e) todo.
Proof.
  revert acc. induction todo as [|o todo IH]; intros acc; cbn; [discriminate |].
  destruct (f o) as [o'|e'] eqn:Ho.
  - intros H. apply Exists_cons_tl. eapply IH, H.
  - intros [= <-]. now apply Exists_cons_hd.
Qed.

Lemma dict_comprehension_raises (fk fv : pyval -> outcome py_exn pyval)
    (todo acc : list (pyval * pyval)) (e : py_exn) :
  dict_comprehension fk fv todo acc = Raises e ->
  e = TypeError \/
  Exists (fun kv => fk (fst kv) = Raises e \/ fv (snd kv) = Raises e) todo.
Proof.
  revert acc. induction todo as [|[k v] todo IH]; intros acc; cbn; [discriminate |].
  destruct (fk k) as [k'|e1] eqn:Hk; [destruct (fv v) as [v'|e2] eqn:Hv;
    [destruct (hashable k') |] |].
  - intros H. destruct (IH _ H) as [-> | Hex]; [now left | right].
    now apply Exists_cons_tl.
  - intros [= <-]. now left.
  - intros [= <-]. right. apply Exists_cons_hd. now right.
  - intros [= <-]. right. apply Exists_cons_hd. now left.
Qed.

(** [_asdict] returns exactly the rendering the specification asks for. *)
Lemma asdict_iff_renders (obj out : pyval) :
  _asdict obj = Returns out <-> renders obj out.
Proof.
  revert out. induction obj as [obj Hpass | elems IH | items IH
                                | cls member value _ | u | d]
    using pyval_nested_ind; intros out.
  - split.
    + destruct obj; try discriminate; intros [= <-]; now apply renders_other.
    + intros H. destruct obj; try discriminate; inversion H; reflexivity.
  - cbn. split.
    + destruct (list_comprehension _asdict elems []) as [l|e] eqn:Hl;
        [| discriminate].
      intros [= <-].
      apply list_comprehension_returns in Hl as (results & Hall & ->).
      cbn. apply renders_list.
      clear -IH Hall. induction Hall as [|o o' todo results Ho Hall IHall];
        constructor; inversion IH as [|? ? IHo IHrest]; subst.
      * now apply IHo.
      * now apply IHall.
    + intros H. inversion H as [| | | ? elems' Hall | |? Hp]; subst;
        [| discriminate].
      assert (Hl : list_comprehension _asdict elems [] = Returns elems').
      { apply list_comprehension_returns. exists elems'. split; [| reflexivity].
        clear -IH Hall. induction Hall as [|o o' todo results Ho Hall IHall];
          constructor; inversion IH as [|? ? IHo IHrest]; subst.
        - now apply IHo.
        - now apply IHall. }
      now rewrite Hl.
  - cbn. split.
    + destruct (dict_comprehension _asdict _asdict items []) as [l|e] eqn:Hl;
        [| discriminate].
      intros [= <-].
      apply dict_comprehension_returns in Hl as (results & Hall & Hhash & ->).
      apply (renders_dict items results); [| exact Hhash].
      clear -IH Hall. induction Hall as [|kv kv' todo results [Hk Hv] Hall IHall];
        constructor; inversion IH as [|? ? [IHk IHv] IHrest]; subst.
      * split; [now apply IHk | now apply IHv].
      * now apply IHall.
    + intros H. inversion H as [| | | | ? items' Hall Hhash |? Hp]; subst;
        [| discriminate].
      assert (Hl : dict_comprehension _asdict _asdict items [] =
                   Returns (dict_of_items items')).
      { apply dict_comprehension_returns. exists items'.
        split; [| split; [exact Hhash | reflexivity]].
        clear -IH Hall. induction Hall as [|kv kv' todo results [Hk Hv] Hall IHall];
          constructor; inversion IH as [|? ? [IHk IHv] IHrest]; subst.
        - split; [now apply IHk | now apply IHv].
        - now apply IHall. }
      now rewrite Hl.
  - cbn. split.
    + intros [= <-]. constructor.
    + intros H. inversion H; subst; [reflexivity | discriminate].
  - cbn. split.
    + intros [= <-]. constructor.
    + intros H. inversion H; subst; [reflexivity | discriminate].
  - cbn. split.
    + intros [= <-]. constructor.
    + intros H. inversion H; subst; [reflexivity | discriminate].
Qed.

(** [_asdict] raises nothing but the [TypeError] of an unhashable key. *)
Lemma asdict_raises_type_error (obj : pyval) (e : py_exn) :
  _asdict obj = Raises e -> e = TypeError.
Proof.
  revert e. induction obj as [obj Hpass | elems IH | items IH
                              | cls member value _ | u | d]
    using pyval_nested_ind; intros e; cbn; try discriminate.
  - destruct obj; discriminate.
  - destruct (list_comprehension _asdict elems []) as [l|e'] eqn:Hl;
      [discriminate |].
    intros [= <-]. apply list_comprehension_raises in Hl.
    rewrite Forall_forall in IH. apply Exists_exists in Hl as (o & Hin & Ho).
    eapply IH; eassumption.
  - destruct (dict_comprehension _asdict _asdict items []) as [l|e'] eqn:Hl;
      [discriminate |].
    intros [= <-]. apply dict_comprehension_raises in Hl as [-> | Hex];
      [reflexivity |].
    rewrite Forall_forall in IH. apply Exists_exists in Hex as (kv & Hin & Hkv).
    destruct (IH kv Hin) as [IHk IHv]. destruct Hkv; eauto.
Qed.


(** ** Further properties of [_asdict] *)

(** A value [_asdict] passes through and that can be hashed renders as
    itself. *)
Lemma asdict_plain_key (k : pyval) :
  json_plain k = true -> hashable k = true -> _asdict k = Returns k.
Proof. destruct k; cbn; intros; try reflexivity; discriminate. Qed.

Lemma dict_setitem_entries (P : pyval -> Prop) (acc : list (pyval * pyval))
    (k v : pyval) :
  Forall (fun kv => P (fst kv) /\ P (snd kv)) acc ->
  P k -> P v ->
  Forall (fun kv => P (fst kv) /\ P (snd kv)) (dict_setitem acc k v).
Proof.
  intros Hacc Hk Hv. induction acc as [|[k0 v0] acc IH]; cbn.
  - constructor; [split; assumption | constructor].
  - inversion Hacc as [|? ? [Hk0 Hv0] Hrest]; subst. cbn in Hk0, Hv0.
    destruct (key_eq k0 k); constructor; auto.
Qed.

Lemma dict_of_entries (P : pyval -> Prop) (pairs acc : list (pyval * pyval)) :
  Forall (fun kv => P (fst kv) /\ P (snd kv)) acc ->
  Forall (fun kv => P (fst kv) /\ P (snd kv)) pairs ->
  Forall (fun kv => P (fst kv) /\ P (snd kv))
    (fold_left (fun acc kv => dict_setitem acc (fst kv) (snd kv)) pairs acc).
Proof.
  revert acc. induction pairs as [|[k v] pairs IH]; intros acc Hacc Hpairs; cbn.
  - exact Hacc.
  - inversion Hpairs as [|? ? [Hk Hv] Hrest]; subst.
    apply IH; [| exact Hrest]. now apply dict_setitem_entries.
Qed.

Lemma json_plain_list (elems : list pyval) :
  json_plain (PList elems) = true <-> Forall (fun o => json_plain o = true) elems.
Proof.
  cbn. induction elems as [|o elems IH]; cbn.
  - split; [constructor | reflexivity].
  - rewrite andb_true_iff, IH. split.
    + intros [Ho Hrest]. now constructor.
    + intros H. inversion H; subst. auto.
Qed.

Lemma json_plain_dict (items : list (pyval * pyval)) :
  json_plain (PDict items) = true <->
  Forall (fun kv => json_plain (fst kv) = true /\ json_plain (snd kv) = true) items.
Proof.
  cbn. induction items as [|[k v] items IH]; cbn.
  - split; [constructor | reflexivity].
  - rewrite !andb_true_iff, IH. split.
    + intros [[Hk Hv] Hrest]. constructor; auto.
    + intros H. inversion H as [|? ? [Hk Hv] Hrest]; subst. auto.
Qed.

(** X14.  When the value of every enumeration that [_asdict] meets holds
    no enumeration, identifier or decimal, nothing of the kind is left in
    what [_asdict] returns: not as the value itself, not as an element of a
    list, not as a key or a value of a dict. *)
Theorem asdict_leaves_nothing_to_render (obj out : pyval) :
  enum_values_plain obj = true ->
  _asdict obj = Returns out ->
  json_plain out = true.
Proof.
  revert out. induction obj as [obj Hpass | elems IH | items IH
                                | cls member value _ | u | d]
    using pyval_nested_ind; intros out Henum.
  - destruct obj; try discriminate; intros [= <-]; reflexivity.
  - cbn. destruct (list_comprehension _asdict elems []) as [l|e] eqn:Hl;
      [| discriminate].
    intros [= <-].
    apply list_comprehension_returns in Hl as (results & Hall & ->).
    apply json_plain_list. cbn in Henum |- *.
    induction Hall as [|o o' todo results Ho Hall IHall]; [constructor |].
    cbn in Henum. apply andb_true_iff in Henum as [Henum_o Henum_rest].
    inversion IH as [|? ? IHo IHrest]; subst.
    constructor; [now apply IHo | now apply IHall].
  - cbn. destruct (dict_comprehension _asdict _asdict items []) as [l|e] eqn:Hl;
      [| discriminate].
    intros [= <-].
    apply dict_comprehension_returns in Hl as (results & Hall & _ & ->).
    apply json_plain_dict.
    apply (dict_of_entries (fun o => json_plain o = true)); [constructor |].
    cbn in Henum.
    induction Hall as [|[k v] [k' v'] todo results [Hk Hv] Hall IHall];
      [constructor |].
    cbn in Henum, Hk, Hv. apply andb_true_iff in Henum as [Hkv Henum_rest].
    apply andb_true_iff in Hkv as [Henum_k Henum_v].
    inversion IH as [|? ? [IHk IHv] IHrest]; subst. cbn in IHk, IHv.
    constructor; [split; cbn; [now apply IHk | now apply IHv] | now apply IHall].
  - cbn in Henum |- *. intros [= <-]. exact Henum.
  - cbn. intros [= <-]. reflexivity.
  - cbn. intros [= <-]. reflexivity.
Qed.

(** Assigning a key that equals no key of the dict appends the item. *)
Lemma dict_setitem_new_key (acc : list (pyval * pyval)) (k v : pyval) :
  Forall (fun kv => key_eq (fst kv) k = false) acc ->
  dict_setitem acc k v = (acc ++ [(k, v)])%list.
Proof.
  induction acc as [|[k0 v0] acc IH]; intros Hnew; cbn; [reflexivity |].
  inversion Hnew as [|? ? Hk0 Hrest]; subst. cbn in Hk0. rewrite Hk0.
  now rewrite IH.
Qed.

Lemma keys_distinct_before (acc rest : list (pyval * pyval)) (k v : pyval) :
  keys_distinct (acc ++ (k, v) :: rest) = true ->
  Forall (fun kv => key_eq (fst kv) k = false) acc.
Proof.
  induction acc as [|[k0 v0] acc IH]; cbn; [constructor |].
  rewrite andb_true_iff, forallb_app. cbn.
  rewrite !andb_true_iff, negb_true_iff.
  intros [(_ & Hk0 & _) Hrest]. constructor; [exact Hk0 | now apply IH].
Qed.

(** A comprehension over items that render as themselves, with keys that
    differ from one another and from the keys collected so far, appends the
    items as they are. *)
Lemma dict_comprehension_identity (todo acc : list (pyval * pyval)) :
  Forall (fun kv => _asdict (fst kv) = Returns (fst kv) /\
                    _asdict (snd kv) = Returns (snd kv) /\
                    hashable (fst kv) = true) todo ->
  keys_distinct (acc ++ todo) = true ->
  dict_comprehension _asdict _asdict todo acc = Returns (acc ++ todo)%list.
Proof.
  revert acc. induction todo as [|[k v] todo IH]; intros acc Hself Hdistinct; cbn.
  - now rewrite app_nil_r.
  - inversion Hself as [|? ? (Hk & Hv & Hh) Hrest]; subst. cbn in Hk, Hv, Hh.
    rewrite Hk, Hv, Hh.
    rewrite (dict_setitem_new_key acc k v (keys_distinct_before _ _ _ _ Hdistinct)).
    rewrite IH; [now rewrite <- app_assoc | exact Hrest |].
    now rewrite <- app_assoc.
Qed.

Lemma list_comprehension_identity (todo acc : list pyval) :
  Forall (fun o => _asdict o = Returns o) todo ->
  list_comprehension _asdict todo acc = Returns (acc ++ todo)%list.
Proof.
  revert acc. induction todo as [|o todo IH]; intros acc Hself; cbn.
  - now rewrite app_nil_r.
  - inversion Hself as [|? ? Ho Hrest]; subst. rewrite Ho.
    rewrite IH; [now rewrite <- app_assoc | exact Hrest].
Qed.

(** X15.  [_asdict] returns a value with no enumeration, identifier or
    decimal as it is: lists keep their elements and their order, dicts their
    items and their order. *)
Theorem asdict_keeps_plain_values (obj : pyval) :
  json_plain obj = true ->
  dicts_well_formed obj = true ->
  _asdict obj = Returns obj.
Proof.
  induction obj as [obj Hpass | elems IH | items IH
                    | cls member value _ | u | d]
    using pyval_nested_ind; intros Hplain Hwf; try discriminate.
  - destruct obj; try discriminate; reflexivity.
  - cbn. rewrite list_comprehension_identity; [reflexivity |].
    cbn in Hplain, Hwf.
    induction elems as [|o elems IHelems]; constructor;
      cbn in Hplain, Hwf;
      apply andb_true_iff in Hplain as [Hp Hps];
      apply andb_true_iff in Hwf as [Hw Hws];
      inversion IH as [|? ? IHo IHrest]; subst; auto.
  - cbn. cbn in Hplain, Hwf. apply andb_true_iff in Hwf as [Hwf Hdistinct].
    rewrite dict_comprehension_identity; [reflexivity | | exact Hdistinct].
    clear Hdistinct.
    induction items as [|[k v] items IHitems]; constructor;
      cbn in Hplain, Hwf;
      apply andb_true_iff in Hplain as [Hp Hps];
      apply andb_true_iff in Hp as [Hpk Hpv];
      apply andb_true_iff in Hwf as [Hw Hws];
      apply andb_true_iff in Hw as [Hh Hwv];
      inversion IH as [|? ? [IHk IHv] IHrest]; subst; cbn in IHk, IHv.
    + cbn. split; [now apply asdict_plain_key |]. split; [now apply IHv | exact Hh].
    + now apply IHitems.
Qed.

Lemma dict_setitem_length (acc : list (pyval * pyval)) (k v : pyval) :
  (length (dict_setitem acc k v) <= S (length acc))%nat.
Proof.
  induction acc as [|[k0 v0] acc IH]; cbn; [lia |].
  destruct (key_eq k0 k); cbn; lia.
Qed.

Lemma dict_of_length (pairs acc : list (pyval * pyval)) :
  (length (fold_left (fun acc kv => dict_setitem acc (fst kv) (snd kv)) pairs acc)
   <= length acc + length pairs)%nat.
Proof.
  revert acc. induction pairs as [|[k v] pairs IH]; intros acc; cbn; [lia |].
  specialize (IH (dict_setitem acc k v)).
  pose proof (dict_setitem_length acc k v). lia.
Qed.

(** X16.  A list keeps its length under [_asdict].  A dict never gains an
    entry: it has at most as many items as before, fewer when two keys
    render as equal keys; each key returned is the rendering of a key of the
    dict, and each value returned the rendering of one of its values. *)
Theorem asdict_never_adds_entries (elems : list pyval)
    (items : list (pyval * pyval)) :
  (forall out : pyval,
     _asdict (PList elems) = Returns out ->
     exists elems' : list pyval,
       out = PList elems' /\ length elems' = length elems) /\
  (forall out : pyval,
     _asdict (PDict items) = Returns out ->
     exists items' : list (pyval * pyval),
       out = PDict items' /\
       (length items' <= length items)%nat /\
       Forall
         (fun kv' =>
            Exists (fun kv => _asdict (fst kv) = Returns (fst kv')) items /\
            Exists (fun kv => _asdict (snd kv) = Returns (snd kv')) items)
         items').
Proof.
  split; intros out; cbn.
  - destruct (list_comprehension _asdict elems []) as [l|e] eqn:Hl;
      [| discriminate].
    intros [= <-].
    apply list_comprehension_returns in Hl as (results & Hall & ->).
    exists results. split; [reflexivity |].
    symmetry. eapply Forall2_length, Hall.
  - destruct (dict_comprehension _asdict _asdict items []) as [l|e] eqn:Hl;
      [| discriminate].
    intros [= <-].
    apply dict_comprehension_returns in Hl as (results & Hall & _ & ->).
    eexists. split; [reflexivity |]. split.
    + pose proof (dict_of_length results []) as Hlen.
      apply Forall2_length in Hall. cbn in Hlen. lia.
    + assert (Hsplit :
        Forall (fun kv' =>
                  Exists (fun kv => _asdict (fst kv) = Returns (fst kv')) items)
          (fold_left (fun acc kv => dict_setitem acc (fst kv) (snd kv)) results [])
        /\
        Forall (fun kv' =>
                  Exists (fun kv => _asdict (snd kv) = Returns (snd kv')) items)
          (fold_left (fun acc kv => dict_setitem acc (fst kv) (snd kv)) results [])).
      { assert (Hk : Forall (fun kv' =>
                  Exists (fun kv => _asdict (fst kv) = Returns (fst kv')) items /\
                  Exists (fun kv => _asdict (snd kv) = Returns (snd kv')) items)
                  results).
        { induction Hall as [|kv kv' todo results [Hk Hv] Hall IHall];
            constructor.
          - split; now apply Exists_cons_hd.
          - eapply Forall_impl; [exact IHall |].
            intros kv'' [H1 H2]. split; now apply Exists_cons_tl. }
        assert (Hgen : forall acc,
          Forall (fun kv' =>
                    Exists (fun kv => _asdict (fst kv) = Returns (fst kv')) items)
            acc ->
          Forall (fun kv' =>
                    Exists (fun kv => _asdict (snd kv) = Returns (snd kv')) items)
            acc ->
          Forall (fun kv' =>
                    Exists (fun kv => _asdict (fst kv) = Returns (fst kv')) items)
            (fold_left (fun acc kv => dict_setitem acc (fst kv) (snd kv)) results acc)
          /\
          Forall (fun kv' =>
                    Exists (fun kv => _asdict (snd kv) = Returns (snd kv')) items)
            (fold_left (fun acc kv => dict_setitem acc (fst kv) (snd kv)) results acc)).
        { clear Hall. induction results as [|[k' v'] results IHr];
            intros acc Hak Hav; cbn; [auto |].
          inversion Hk as [|? ? [Hk' Hv'] Hrest]; subst. cbn in Hk', Hv'.
          apply IHr; [exact Hrest | |].
          - clear -Hak Hk'. induction acc as [|[k0 v0] acc IHacc]; cbn.
            + constructor; [exact Hk' | constructor].
            + inversion Hak; subst. destruct (key_eq k0 k'); constructor; auto.
          - clear -Hav Hv'. induction acc as [|[k0 v0] acc IHacc]; cbn.
            + constructor; [exact Hv' | constructor].
            + inversion Hav; subst. destruct (key_eq k0 k'); constructor; auto. }
        apply Hgen; constructor. }
      destruct Hsplit as [Hkeys Hvalues].
      apply Forall_and. split; assumption.
Qed.


(** *** Identifiers render without loss *)

Lemma hex_digit_inj (a b : N) :
  (a < 16)%N -> (b < 16)%N ->
  PyStr.hex_digit a = PyStr.hex_digit b -> a = b.
Proof.
  intros Ha Hb.
  assert (Hcases : forall n : N, (n < 16)%N ->
    In n [0; 1; 2; 3; 4; 5; 6; 7; 8; 9; 10; 11; 12; 13; 14; 15]%N).
  { intros n Hn. cbn.
    destruct n as [|[[[[?|?|]|[?|?|]|]|[[?|?|]|[?|?|]|]|]|[[[?|?|]|[?|?|]|]|[[?|?|]|[?|?|]|]|]|]];
      try lia; tauto. }
  pose proof (Hcases a Ha) as Ia. pose proof (Hcases b Hb) as Ib.
  cbn in Ia, Ib.
  repeat (destruct Ia as [<- | Ia]; [|]); try contradiction;
    repeat (destruct Ib as [<- | Ib]; [|]); try contradiction;
    cbn; intros H; first [reflexivity | discriminate H].
Qed.

(** The digits determine the number up to [16 ^ width]. *)
Lemma hex_digits_inj (width : nat) (n1 n2 : N) (acc1 acc2 : string) :
  PyStr.hex_digits width n1 acc1 = PyStr.hex_digits width n2 acc2 ->
  (n1 mod 16 ^ N.of_nat width = n2 mod 16 ^ N.of_nat width)%N /\ acc1 = acc2.
Proof.
  revert n1 n2 acc1 acc2.
  induction width as [|w IH]; intros n1 n2 acc1 acc2; cbn [PyStr.hex_digits].
  - intros ->. split; [| reflexivity]. cbn. now rewrite !N.mod_1_r.
  - intros H. apply IH in H as [Hhigh Hacc].
    injection Hacc as Hdigit Hacc. split; [| exact Hacc].
    change 15%N with (N.ones 4) in Hdigit. rewrite !N.land_ones in Hdigit.
    apply hex_digit_inj in Hdigit;
      [| apply N.mod_lt; discriminate | apply N.mod_lt; discriminate].
    rewrite !N.shiftr_div_pow2 in Hhigh.
    change (2 ^ 4)%N with 16%N in Hhigh, Hdigit.
    rewrite Nat2N.inj_succ, N.pow_succ_r'.
    rewrite !N.Div0.mod_mul_r. congruence.
Qed.

(** The dashes of the canonical form are at fixed places. *)
Lemma dashed_inj (h1 h2 : string) :
  String.length h1 = 32%nat -> String.length h2 = 32%nat ->
  PyStr.slice 0 8 h1 +:+ "-" +:+ PyStr.slice 8 12 h1 +:+ "-" +:+
  PyStr.slice 12 16 h1 +:+ "-" +:+ PyStr.slice 16 20 h1 +:+ "-" +:+
  PyStr.slice_from 20 h1 =
  PyStr.slice 0 8 h2 +:+ "-" +:+ PyStr.slice 8 12 h2 +:+ "-" +:+
  PyStr.slice 12 16 h2 +:+ "-" +:+ PyStr.slice 16 20 h2 +:+ "-" +:+
  PyStr.slice_from 20 h2 ->
  h1 = h2.
Proof.
  intros L1 L2.
  do 32 (destruct h1 as [|? h1]; [discriminate L1 |]).
  destruct h1; [| discriminate L1].
  do 32 (destruct h2 as [|? h2]; [discriminate L2 |]).
  destruct h2; [| discriminate L2].
  clear L1 L2. vm_compute. intros H.
  injection H; intros; subst; reflexivity.
Qed.

Lemma format_032x_length (n : N) :
  String.length (PyStr.format_032x n) = 32%nat.
Proof. unfold PyStr.format_032x. now rewrite hex_digits_length. Qed.

(** X17.  Two different 128-bit identifiers never render as the same
    string. *)
Theorem asdict_uuid_injective (u1 u2 : UUID) :
  (uuid_int u1 < 2 ^ 128)%N -> (uuid_int u2 < 2 ^ 128)%N ->
  u1 <> u2 ->
  _asdict (PUUID u1) <> _asdict (PUUID u2).
Proof.
  intros B1 B2 Hne H. apply Hne.
  cbn [_asdict] in H.
  remember (UUID_str u1) as s1 eqn:E1. remember (UUID_str u2) as s2 eqn:E2.
  injection H as H. rewrite E1, E2 in H. clear E1 E2 s1 s2.
  unfold UUID_str in H; cbv zeta in H.
  apply (dashed_inj (PyStr.format_032x (uuid_int u1))
           (PyStr.format_032x (uuid_int u2))
           (format_032x_length _) (format_032x_length _)) in H.
  unfold PyStr.format_032x in H.
  apply hex_digits_inj in H as [H _].
  assert (Hpow : (16 ^ N.of_nat 32 = 2 ^ 128)%N) by reflexivity.
  rewrite Hpow in H.
  rewrite !N.mod_small in H by assumption.
  destruct u1, u2. cbn [uuid_int] in H. now subst.
Qed.

(** X18.  Two different finite decimals, with digits as the [Decimal]
    constructor leaves them, never render as the same string: the rendering
    loses neither a digit nor the exponent, so [19.99] and [19.990] stay
    apart. *)
Theorem asdict_decimal_injective (d1 d2 : Decimal) (e1 e2 : Z) :
  dec_exp_ d1 = Finite e1 -> dec_exp_ d2 = Finite e2 ->
  canonical_digits (dec_int d1) = true ->
  canonical_digits (dec_int d2) = true ->
  d1 <> d2 ->
  _asdict (PDecimal d1) <> _asdict (PDecimal d2).
Proof.
  intros He1 He2 Hc1 Hc2 Hne H. apply Hne.
  cbn [_asdict] in H.
  remember (Decimal_str d1) as s1 eqn:E1.
  remember (Decimal_str d2) as s2 eqn:E2.
  injection H as H. rewrite E1, E2 in H.
  exact (Decimal_str_inj d1 d2 e1 e2 He1 He2 Hc1 Hc2 H).
Qed.

(** ** What [_asdict] returns *)

(** Looking a key up after an assignment: the value assigned when the key
    equals the one assigned, the value before otherwise. *)
Lemma dict_getitem_setitem (acc : list (pyval * pyval)) (k v q : pyval) :
  (forall a b, key_eq a b = key_eq b a) ->
  (forall a b c, key_eq a b = true -> key_eq b c = true -> key_eq a c = true) ->
  dict_getitem (dict_setitem acc k v) q =
  if key_eq k q then Some v else dict_getitem acc q.
Proof.
  intros Hsym Htrans.
  induction acc as [|[k0 v0] acc IH]; cbn.
  - destruct (key_eq k q); reflexivity.
  - destruct (key_eq k0 k) eqn:Hk0k; cbn.
    + destruct (key_eq k0 q) eqn:Hk0q, (key_eq k q) eqn:Hkq; try reflexivity.
      * rewrite Hsym in Hk0k. rewrite (Htrans _ _ _ Hk0k Hk0q) in Hkq.
        discriminate.
      * rewrite (Htrans _ _ _ Hk0k Hkq) in Hk0q. discriminate.
    + destruct (key_eq k0 q) eqn:Hk0q; [| exact IH].
      destruct (key_eq k q) eqn:Hkq; [| reflexivity].
      rewrite Hsym in Hkq. rewrite (Htrans _ _ _ Hk0q Hkq) in Hk0k.
      discriminate.
Qed.

Lemma dict_getitem_app (a b : list (pyval * pyval)) (q : pyval) :
  dict_getitem (a ++ b) q =
  match dict_getitem a q with
  | Some v => Some v
  | None => dict_getitem b q
  end.
Proof.
  induction a as [|[k0 v0] a IH]; cbn; [reflexivity |].
  destruct (key_eq k0 q); [reflexivity | exact IH].
Qed.

(** In the dict of a list of pairs, a key has the value of the last pair
    with an equal key. *)
Lemma dict_getitem_last_wins (pairs acc : list (pyval * pyval)) (q : pyval) :
  (forall a b, key_eq a b = key_eq b a) ->
  (forall a b c, key_eq a b = true -> key_eq b c = true -> key_eq a c = true) ->
  dict_getitem
    (fold_left (fun acc kv => dict_setitem acc (fst kv) (snd kv)) pairs acc) q =
  match dict_getitem (rev pairs) q with
  | Some v => Some v
  | None => dict_getitem acc q
  end.
Proof.
  intros Hsym Htrans. revert acc.
  induction pairs as [|[k v] pairs IH]; intros acc; cbn [fold_left rev].
  - reflexivity.
  - rewrite IH, dict_getitem_app. cbn [fst snd].
    rewrite dict_getitem_setitem by assumption.
    destruct (dict_getitem (rev pairs) q); [reflexivity |].
    cbn. destruct (key_eq k q); reflexivity.
Qed.

(** Pairs with keys that differ from one another make the dict that lists
    them in their order. *)
Lemma dict_of_distinct_items (pairs acc : list (pyval * pyval)) :
  keys_distinct (acc ++ pairs) = true ->
  fold_left (fun acc kv => dict_setitem acc (fst kv) (snd kv)) pairs acc =
  (acc ++ pairs)%list.
Proof.
  revert acc. induction pairs as [|[k v] pairs IH]; intros acc Hdistinct; cbn.
  - now rewrite app_nil_r.
  - rewrite (dict_setitem_new_key acc k v (keys_distinct_before _ _ _ _ Hdistinct)).
    rewrite IH; rewrite <- app_assoc; [reflexivity | exact Hdistinct].
Qed.

(** The canonical form determines a 128-bit identifier. *)
Lemma UUID_str_inj (u1 u2 : UUID) :
  (uuid_int u1 < 2 ^ 128)%N -> (uuid_int u2 < 2 ^ 128)%N ->
  UUID_str u1 = UUID_str u2 -> u1 = u2.
Proof.
  intros B1 B2 H. unfold UUID_str in H. cbv zeta in H.
  apply (dashed_inj (PyStr.format_032x (uuid_int u1))
           (PyStr.format_032x (uuid_int u2))
           (format_032x_length _) (format_032x_length _)) in H.
  unfold PyStr.format_032x in H. apply hex_digits_inj in H as [H _].
  assert (Hpow : (16 ^ N.of_nat 32 = 2 ^ 128)%N) by reflexivity.
  rewrite Hpow in H. rewrite !N.mod_small in H by assumption.
  destruct u1, u2. cbn [uuid_int] in H. now subst.
Qed.

(** C7.  Through nested lists and dicts, [_asdict] renders an enumeration
    as its underlying value, a UUID as its canonical string and a [Decimal]
    as its exact string: a [str] in both cases, never a number.

    It returns a value exactly when that value is the rendering the
    specification asks for.  Every element of a list is rendered in its
    place.  Every item of a dict is rendered: when the rendered keys differ
    from one another the dict returned holds the rendered items, all of
    them, in their order; when rendered keys are equal a key has the
    rendering of the last value given under it.  A rendered key that cannot
    be hashed makes [_asdict] raise [TypeError], the one way it fails.
    [Model.to_dict] is [_asdict] of what the mixin returns.

    The strings lose nothing: the canonical form of a UUID has 36
    characters and two 128-bit identifiers with the same string are equal;
    two finite decimals with the same string have the same sign, digits and
    exponent. *)
Theorem to_dict_renders_enum_uuid_decimal :
  (forall obj out : pyval, _asdict obj = Returns out <-> renders obj out) /\
  (forall (cls member : string) (value : pyval),
     _asdict (PEnum cls member value) = Returns value) /\
  (forall u : UUID, _asdict (PUUID u) = Returns (PStr (UUID_str u))) /\
  (forall d : Decimal, _asdict (PDecimal d) = Returns (PStr (Decimal_str d))) /\
  (forall (elems : list pyval) (out : pyval),
     _asdict (PList elems) = Returns out <->
     exists elems' : list pyval,
       out = PList elems' /\
       Forall2 (fun o o' => _asdict o = Returns o') elems elems') /\
  (forall (items : list (pyval * pyval)) (out : pyval),
     _asdict (PDict items) = Returns out ->
     exists items' : list (pyval * pyval),
       out = PDict (dict_of_items items') /\
       Forall2 (fun kv kv' => _asdict (fst kv) = Returns (fst kv') /\
                              _asdict (snd kv) = Returns (snd kv'))
         items items') /\
  (forall items items' : list (pyval * pyval),
     Forall2 (fun kv kv' => _asdict (fst kv) = Returns (fst kv') /\
                            _asdict (snd kv) = Returns (snd kv'))
       items items' ->
     Forall (fun kv' => hashable (fst kv') = true) items' ->
     keys_distinct items' = true ->
     _asdict (PDict items) = Returns (PDict items')) /\
  ((forall a b : pyval, key_eq a b = key_eq b a) ->
   (forall a b c : pyval,
      key_eq a b = true -> key_eq b c = true -> key_eq a c = true) ->
   forall (items : list (pyval * pyval)) (out : pyval),
     _asdict (PDict items) = Returns out ->
     exists d items' : list (pyval * pyval),
       out = PDict d /\
       Forall2 (fun kv kv' => _asdict (fst kv) = Returns (fst kv') /\
                              _asdict (snd kv) = Returns (snd kv'))
         items items' /\
       forall q : pyval, dict_getitem d q = dict_getitem (rev items') q) /\
  (forall (items : list (pyval * pyval)) (k v k' : pyval),
     In (k, v) items -> _asdict k = Returns k' -> hashable k' = false ->
     _asdict (PDict items) = Raises TypeError) /\
  (forall (self : dataclass) (encode_json : option bool) (out : pyval),
     Model_to_dict self encode_json = Returns out <->
     exists dct : pyval,
       mixin_to_dict self (default true encode_json) = Returns dct /\
       renders dct out) /\
  (forall (obj : pyval) (e : py_exn), _asdict obj = Raises e -> e = TypeError) /\
  (forall u : UUID, String.length (UUID_str u) = 36%nat) /\
  (forall u1 u2 : UUID,
     (uuid_int u1 < 2 ^ 128)%N -> (uuid_int u2 < 2 ^ 128)%N ->
     _asdict (PUUID u1) = _asdict (PUUID u2) -> u1 = u2) /\
  (forall (d1 d2 : Decimal) (e1 e2 : Z),
     dec_exp_ d1 = Finite e1 -> dec_exp_ d2 = Finite e2 ->
     canonical_digits (dec_int d1) = true ->
     canonical_digits (dec_int d2) = true ->
     _asdict (PDecimal d1) = _asdict (PDecimal d2) -> d1 = d2).
Proof.
  split; [exact asdict_iff_renders |].
  split; [reflexivity |]. split; [reflexivity |]. split; [reflexivity |].
  repeat match goal with |- _ /\ _ => split end.
  - intros elems out. cbn. split.
    + destruct (list_comprehension _asdict elems []) as [l|e] eqn:Hl;
        [| discriminate].
      intros [= <-].
      apply list_comprehension_returns in Hl as (results & Hall & ->).
      exists results. auto.
    + intros (elems' & -> & Hall).
      assert (Hl : list_comprehension _asdict elems [] = Returns elems').
      { apply list_comprehension_returns. exists elems'. auto. }
      now rewrite Hl.
  - intros items out. cbn.
    destruct (dict_comprehension _asdict _asdict items []) as [l|e] eqn:Hl;
      [| discriminate].
    intros [= <-].
    apply dict_comprehension_returns in Hl as (results & Hall & Hhash & ->).
    exists results. auto.
  - intros items items' Hall Hhash Hdistinct. cbn.
    assert (Hl : dict_comprehension _asdict _asdict items [] = Returns items').
    { apply dict_comprehension_returns. exists items'.
      split; [exact Hall |]. split; [exact Hhash |].
      symmetry. now apply (dict_of_distinct_items items' []). }
    now rewrite Hl.
  - intros Hsym Htrans items out. cbn.
    destruct (dict_comprehension _asdict _asdict items []) as [l|e] eqn:Hl;
      [| discriminate].
    intros [= <-].
    apply dict_comprehension_returns in Hl as (results & Hall & Hhash & ->).
    eexists _, results. split; [reflexivity |]. split; [exact Hall |].
    intros q. rewrite dict_getitem_last_wins by assumption.
    now destruct (dict_getitem (rev results) q).
  - intros items k v k' Hin Hk Hunhashable.
    destruct (_asdict (PDict items)) as [out|e] eqn:Hout.
    + exfalso. cbn in Hout.
      destruct (dict_comprehension _asdict _asdict items []) as [l|e] eqn:Hl;
        [| discriminate].
      apply dict_comprehension_returns in Hl as (results & Hall & Hhash & _).
      clear Hout. induction Hall as [|kv kv' todo results [Hk1 Hv1] Hall IHall];
        [destruct Hin |].
      inversion Hhash as [|? ? Hh Hhrest]; subst.
      destruct Hin as [-> | Hin]; [| now apply IHall].
      cbn [fst] in Hk1. rewrite Hk in Hk1. injection Hk1 as Hk1.
      rewrite <- Hk1 in Hh. congruence.
    + f_equal. now apply asdict_raises_type_error in Hout.
  - intros self encode_json out. unfold Model_to_dict.
    destruct (mixin_to_dict self (default true encode_json)) as [dct|e]; split.
    + intros H. exists dct. split; [reflexivity | now apply asdict_iff_renders].
    + intros (dct' & [= <-] & H). now apply asdict_iff_renders.
    + discriminate.
    + intros (dct' & H & _). discriminate.
  - exact asdict_raises_type_error.
  - exact UUID_str_length.
  - intros u1 u2 B1 B2 H. cbn [_asdict] in H.
    remember (UUID_str u1) as s1 eqn:E1. remember (UUID_str u2) as s2 eqn:E2.
    injection H as H. rewrite E1, E2 in H. now apply UUID_str_inj.
  - intros d1 d2 e1 e2 He1 He2 Hc1 Hc2 H. cbn [_asdict] in H.
    remember (Decimal_str d1) as s1 eqn:E1.
    remember (Decimal_str d2) as s2 eqn:E2.
    injection H as H. rewrite E1, E2 in H.
    exact (Decimal_str_inj d1 d2 e1 e2 He1 He2 Hc1 Hc2 H).
Qed.

End ModelProperties.

(** ** [_asdict] on the example values *)

Section AgainstSample.
Import Sample.

Lemma asdict_leaves_nothing_to_render_witness :
  json_plain
    (PDict
       [(PStr "id", PStr "12345678-1234-5678-1234-567812345678");
        (PStr "status", PStr "paid");
        (PStr "prices", PList [PStr "19.99"; PInt 3])]) = true.
Proof.
  apply (asdict_leaves_nothing_to_render (KE := keys)
           (PDict (map (fun f => (PStr (fst f), snd f)) order)));
    reflexivity.
Defined.

Lemma asdict_keeps_plain_values_witness :
  _asdict
    (PDict [(PStr "name", PStr "x"); (PStr "tags", PList [PInt 1; PNone]);
            (PInt 7, PTuple [PBool true])]) =
  Returns
    (PDict [(PStr "name", PStr "x"); (PStr "tags", PList [PInt 1; PNone]);
            (PInt 7, PTuple [PBool true])]).
Proof.
  apply (asdict_keeps_plain_values (KE := keys)); reflexivity.
Defined.

Lemma asdict_uuid_injective_witness :
  _asdict (PUUID ident) <> _asdict (PUUID (mkUUID 255)).
Proof.
  apply (asdict_uuid_injective (KE := keys) ident (mkUUID 255));
    [reflexivity | reflexivity | discriminate].
Defined.

Lemma asdict_decimal_injective_witness :
  _asdict (PDecimal price) <> _asdict (PDecimal (mkDecimal false "19990" (Finite (-3)))).
Proof.
  apply (asdict_decimal_injective (KE := keys) price
           (mkDecimal false "19990" (Finite (-3))) (-2) (-3));
    [reflexivity | reflexivity | reflexivity | reflexivity | discriminate].
Defined.

(** The key equality of the examples is symmetric and transitive. *)
Lemma sample_keys_symmetric (a b : pyval) : key_eq a b = key_eq b a.
Proof.
  destruct a, b; cbn; try reflexivity.
  - apply Z.eqb_sym.
  - apply String.eqb_sym.
Qed.

Lemma sample_keys_transitive (a b c : pyval) :
  key_eq a b = true -> key_eq b c = true -> key_eq a c = true.
Proof.
  destruct a, b; cbn; try discriminate; destruct c; cbn; try discriminate.
  - rewrite !Z.eqb_eq. congruence.
  - rewrite !String.eqb_eq. congruence.
Qed.

(** A member of an enumeration and its value are one key once rendered:
    the value given last stays, at the place of the first. *)
Example equal_rendered_keys_last_wins :
  _asdict
    (PDict [(PEnum "Status" "PAID" (PStr "paid"), PInt 1);
            (PStr "open", PInt 2);
            (PStr "paid", PInt 3)]) =
  Returns (PDict [(PStr "paid", PInt 3); (PStr "open", PInt 2)]).
Proof. reflexivity. Qed.

(** A member whose value is a signaling NaN cannot be a key. *)
Example unhashable_rendered_key_raises :
  _asdict
    (PDict [(PEnum "Limit" "NONE" (PDecimal (mkDecimal false "" SignalingNaN)),
             PInt 1)]) =
  Raises TypeError.
Proof. reflexivity. Qed.

End AgainstSample.

(** An order with an identifier, a status and prices, serialized. *)
Example order_to_dict :
  Model_to_dict (KE := Sample.keys) (DJ := Sample.mixin) Sample.order None =
  Returns
    (PDict
       [(PStr "id", PStr "12345678-1234-5678-1234-567812345678");
        (PStr "status", PStr "paid");
        (PStr "prices", PList [PStr "19.99"; PInt 3])]).
Proof. reflexivity. Qed.
